(** * Shallow embedding of the data core of PA12-PCC (src/main.py,
    class [GestorAnimales]) and of the report projection of src/proyecto.py.

    Python [str] values are modelled as Rocq [string]s holding their UTF-8
    encoding: byte-wise lexicographic order on UTF-8 coincides with Python's
    code-point order, and a code-point substring is a byte substring.
    The float64 routines of numpy and pandas ([np.polyfit], [np.polyval],
    [mean]) are parameters of the statistics (record [Numerico]): their
    results are finite floats, written as rationals ([Q]), constrained only
    by the hypotheses of the theorems that use them. *)

From Stdlib Require Import String Ascii ZArith NArith QArith Qround List Bool Lia.
From Stdlib Require Import Sorting.Sorted Sorting.Permutation Lqa Qabs.
Import ListNotations.
Open Scope string_scope.

(* ------------------------------------------------------------------ *)
(** ** Python string primitives *)

Definition byte_of (c : ascii) : N := N_of_ascii c.

(** [str.isspace] restricted to the ASCII range: \t \n \v \f \r, the
    separators \x1c..\x1f and the space. *)
Definition is_space (c : ascii) : bool :=
  let n := byte_of c in
  ((9 <=? n)%N && (n <=? 13)%N) || ((28 <=? n)%N && (n <=? 32)%N).

Fixpoint lstrip (s : string) : string :=
  match s with
  | EmptyString => EmptyString
  | String c r => if is_space c then lstrip r else s
  end.

Definition rev_str (s : string) : string :=
  string_of_list_ascii (rev (list_ascii_of_string s)).

(** [str.strip()] *)
Definition strip (s : string) : string := rev_str (lstrip (rev_str (lstrip s))).

(** [str.lower()] on UTF-8: ASCII A..Z, and the Latin-1 capitals
    U+00C0..U+00DE except U+00D7 (encoded C3 80..C3 9E). *)
Fixpoint lower (s : string) : string :=
  match s with
  | EmptyString => EmptyString
  | String c r =>
      let n := byte_of c in
      if ((65 <=? n)%N && (n <=? 90)%N) then String (ascii_of_N (n + 32)) (lower r)
      else if (n =? 195)%N then
        match r with
        | String d r' =>
            let m := byte_of d in
            if ((128 <=? m)%N && (m <=? 158)%N && negb (m =? 151)%N)
            then String c (String (ascii_of_N (m + 32)) (lower r'))
            else String c (String d (lower r'))
        | EmptyString => String c EmptyString
        end
      else String c (lower r)
  end.

Fixpoint is_prefix (p s : string) : bool :=
  match p, s with
  | EmptyString, _ => true
  | String a p', String b s' => Ascii.eqb a b && is_prefix p' s'
  | String _ _, EmptyString => false
  end.

(** Python's [a in b] for strings. *)
Fixpoint str_in (a b : string) : bool :=
  is_prefix a b ||
  match b with
  | EmptyString => false
  | String _ b' => str_in a b'
  end.

(** Python's [x in lst] for a list of strings. *)
Definition list_in (x : string) (l : list string) : bool :=
  existsb (String.eqb x) l.

(* ------------------------------------------------------------------ *)
(** ** Constants (src/main.py) *)

Definition PROVINCIAS_PANAMA : list string :=
  [ "Bocas del Toro"; "Chiriquí"; "Coclé"; "Colón"; "Darién";
    "Herrera"; "Los Santos"; "Panamá"; "Veraguas"; "Panamá Oeste" ].

Definition ESPECIES_PANAMA : list string :=
  [ "Águila Arpía"; "Jaguar"; "Perezoso de Tres Dedos";
    "Tapir Centroamericano"; "Tortuga Carey"; "Rana Dorada" ].

Definition COLUMNAS_REQUERIDAS : list string :=
  [ "Especie"; "Cantidad"; "Año"; "Provincia" ].

(* ------------------------------------------------------------------ *)
(** ** [GestorAnimales._validar_provincias.corregir_provincia] *)

(** [prov.lower() in p.lower() or p.lower() in prov.lower()] *)
Definition coincide (prov p : string) : bool :=
  str_in (lower prov) (lower p) || str_in (lower p) (lower prov).

(** The loop [for p in PROVINCIAS_PANAMA: if ...: return p]. *)
Fixpoint buscar_parcial (prov : string) (ps : list string) : option string :=
  match ps with
  | [] => None
  | p :: ps' => if coincide prov p then Some p else buscar_parcial prov ps'
  end.

Definition corregir_provincia (prov0 : string) : string :=
  let prov := strip prov0 in
  if list_in prov PROVINCIAS_PANAMA then prov
  else match buscar_parcial prov PROVINCIAS_PANAMA with
       | Some p => p
       | None => prov
       end.

(* ------------------------------------------------------------------ *)
(** ** Spreadsheet cells and pandas coercions *)

(** A cell of the sheet as [pd.read_excel] returns it: an integer, a text
    or a blank ([NaN]). *)
Inductive celda : Type :=
| CInt (z : Z)
| CStr (s : string)
| CNaN.

Definition digit_val (c : ascii) : option Z :=
  let n := byte_of c in
  if ((48 <=? n)%N && (n <=? 57)%N) then Some (Z.of_N (n - 48)) else None.

(** Digits of an unsigned decimal numeral, accumulated into [acc]; the number
    of digits read is returned as well. *)
Fixpoint leer_digitos (s : string) (acc : Z) (k : nat) : Z * nat * string :=
  match s with
  | String c r =>
      match digit_val c with
      | Some d => leer_digitos r (10 * acc + d) (S k)
      | None => (acc, k, s)
      end
  | EmptyString => (acc, k, s)
  end.

(** [pd.to_numeric] on a text: an optional sign, digits, optionally a
    point and more digits; anything else coerces to [NaN]. *)
Definition parse_num (s : string) : option Q :=
  let '(neg, s1) :=
    match s with
    | String "-"%char r => (true, r)
    | String "+"%char r => (false, r)
    | _ => (false, s)
    end in
  let '(ent, k1, s2) := leer_digitos s1 0 0 in
  let '(fr, k2, s3) :=
    match s2 with
    | String "."%char r => leer_digitos r 0 0
    | _ => (0%Z, 0%nat, s2)
    end in
  match s3 with
  | EmptyString =>
      if (Nat.eqb (k1 + k2) 0) then None
      else
        let q := (inject_Z ent + inject_Z fr / inject_Z (10 ^ Z.of_nat k2))%Q in
        Some (if neg then Qopp q else q)
  | _ => None
  end.

(** [pd.to_numeric(col, errors="coerce")] on one cell, on the plain decimal
    spellings of [parse_num]; pandas accepts more ("inf", exponents, padded
    numbers), which [celda_entera] below keeps out of the theorems about
    loading. *)
Definition to_numeric (c : celda) : option Q :=
  match c with
  | CInt z => Some (inject_Z z)
  | CStr s => parse_num s
  | CNaN => None
  end.

(** [.fillna(0).astype(int)]: truncation toward zero, exact on the values
    of [celda_entera] below (pandas raises on infinite values and rounds
    integers beyond [2 ^ 53] that pass through float64). *)
Definition fillna0_astype_int (o : option Q) : Z :=
  match o with
  | Some q => Z.quot (Qnum q) (Zpos (Qden q))
  | None => 0%Z
  end.

Fixpoint digitos_N (fuel : nat) (n : N) (acc : string) : string :=
  match fuel with
  | O => acc
  | S f =>
      let acc' := String (ascii_of_N (48 + N.modulo n 10)) acc in
      if (n <? 10)%N then acc' else digitos_N f (N.div n 10) acc'
  end.

(** [str(z)] for a Python [int]. *)
Definition str_Z (z : Z) : string :=
  let n := Z.abs_N z in
  let d := digitos_N (S (N.size_nat n)) n EmptyString in
  if (z <? 0)%Z then String "-"%char d else d.

(** [.astype(str)] on one cell. *)
Definition astype_str (c : celda) : string :=
  match c with
  | CInt z => str_Z z
  | CStr s => s
  | CNaN => "nan"
  end.

(* ------------------------------------------------------------------ *)
(** ** The dataset: a pandas [DataFrame] with the four typed columns *)

(** One row after the load normalisation: [Especie] and [Provincia] hold
    [str], [Cantidad] and [Año] hold [int]. *)
Record Registro : Type := mkRegistro {
  Especie : string;
  Cantidad : Z;
  Año : Z;
  Provincia : string
}.

(** A frame: its column labels, its row index labels and its rows. *)
Record DataFrame : Type := mkDataFrame {
  columns : list string;
  indice : list Z;
  filas : list Registro
}.

(** [pd.RangeIndex(n)] *)
Definition range_index (n : nat) : list Z := map Z.of_nat (seq 0 n).

(** [pd.DataFrame(columns=cols)] *)
Definition df_vacio (cols : list string) : DataFrame := mkDataFrame cols [] [].

(** [df.empty]: no rows or no columns. *)
Definition df_empty (d : DataFrame) : bool :=
  Nat.eqb (length (indice d)) 0 || Nat.eqb (length (columns d)) 0.

Record Gestor : Type := mkGestor {
  df : DataFrame;
  ruta_archivo : option string;
  cambios_sin_guardar : bool
}.

(** [GestorAnimales.__init__] *)
Definition gestor_inicial : Gestor :=
  mkGestor (df_vacio COLUMNAS_REQUERIDAS) None false.

Definition Resultado : Type := (bool * string)%type.

(* ------------------------------------------------------------------ *)
(** ** [GestorAnimales.cargar_excel] *)

(** What [pd.read_excel(ruta)] returns: the header labels and the rows. *)
Record Hoja : Type := mkHoja {
  hoja_columnas : list string;
  hoja_filas : list (list celda)
}.

Fixpoint posicion (x : string) (l : list string) : option nat :=
  match l with
  | [] => None
  | y :: l' => if String.eqb x y then Some 0%nat
               else option_map S (posicion x l')
  end.

(** The cell of column [col] in a raw row, after the backfill
    [if col not in df_temp.columns: df_temp[col] = ""]. *)
Definition celda_col (cols : list string) (col : string) (r : list celda) : celda :=
  match posicion col cols with
  | Some i => nth i r CNaN
  | None => CStr ""
  end.

(** The column-wise normalisation of [cargar_excel], row by row, with
    [_validar_provincias] applied to the province. *)
Definition normalizar_fila (cols : list string) (r : list celda) : Registro :=
  mkRegistro
    (strip (astype_str (celda_col cols "Especie" r)))
    (fillna0_astype_int (to_numeric (celda_col cols "Cantidad" r)))
    (fillna0_astype_int (to_numeric (celda_col cols "Año" r)))
    (corregir_provincia (strip (astype_str (celda_col cols "Provincia" r)))).

Definition leer_dataframe (h : Hoja) : DataFrame :=
  let rows := map (normalizar_fila (hoja_columnas h)) (hoja_filas h) in
  mkDataFrame COLUMNAS_REQUERIDAS (range_index (length rows)) rows.

(** [lectura] is the outcome of [pd.read_excel(ruta)]: the sheet, or the
    text of the exception it raised. *)
Definition cargar_excel (g : Gestor) (ruta : string) (lectura : string + Hoja)
  : Gestor * Resultado :=
  match lectura with
  | inl err => (g, (false, "Error al cargar: " ++ err))
  | inr h =>
      let d := leer_dataframe h in
      (mkGestor d (Some ruta) false,
       (true, "Archivo cargado: " ++ str_Z (Z.of_nat (length (filas d))) ++ " registros"))
  end.

(** The "Cantidad" and "Año" cells on which the load is exact and cannot
    raise: integers within the float64 exact range, missing cells, and the
    empty text of the backfill (which [pd.to_numeric] coerces to [NaN]). *)
Definition celda_entera (c : celda) : Prop :=
  match c with
  | CInt z => (- 2 ^ 53 <= z <= 2 ^ 53)%Z
  | CNaN => True
  | CStr s => s = ""
  end.

Definition hoja_numerica (h : Hoja) : Prop :=
  forall fila, In fila (hoja_filas h) ->
    celda_entera (celda_col (hoja_columnas h) "Cantidad" fila) /\
    celda_entera (celda_col (hoja_columnas h) "Año" fila).

(* ------------------------------------------------------------------ *)
(** ** Validation shared by [agregar_registro] and [modificar_registro] *)

Definition validar (especie : string) (cantidad año : Z) (provincia : string)
  : option string :=
  if String.eqb especie "" || String.eqb (strip especie) "" then
    Some "Debe seleccionar una especie"
  else if negb (list_in especie ESPECIES_PANAMA) then
    Some "Especie no válida. Debe seleccionar de la lista"
  else if (cantidad <? 0)%Z then Some "La cantidad debe ser positiva"
  else if negb ((1900 <=? año)%Z && (año <=? 2100)%Z) then
    Some "El año debe estar entre 1900 y 2100"
  else if negb (list_in provincia PROVINCIAS_PANAMA) then
    Some "Provincia no válida"
  else None.

(** Column union of [pd.concat]: the labels of the first frame, then those
    of the second that the first lacks. *)
Definition union_columnas (a b : list string) : list string :=
  (a ++ filter (fun c => negb (list_in c a)) b)%list.

(** [pd.concat([d, nueva_fila], ignore_index=True)] *)
Definition concat_fila (d : DataFrame) (r : Registro) : DataFrame :=
  let rows := (filas d ++ [r])%list in
  mkDataFrame (union_columnas (columns d) COLUMNAS_REQUERIDAS)
              (range_index (length rows)) rows.

(** [GestorAnimales.agregar_registro] *)
Definition agregar_registro (g : Gestor) (especie : string) (cantidad año : Z)
  (provincia : string) : Gestor * Resultado :=
  match validar especie cantidad año provincia with
  | Some msg => (g, (false, msg))
  | None =>
      let r := mkRegistro (strip especie) cantidad año provincia in
      (mkGestor (concat_fila (df g) r) (ruta_archivo g) true,
       (true, "Registro agregado correctamente"))
  end.

(* ------------------------------------------------------------------ *)
(** ** [GestorAnimales.modificar_registro] and [eliminar_registro] *)

Fixpoint posicion_Z (x : Z) (l : list Z) : option nat :=
  match l with
  | [] => None
  | y :: l' => if Z.eqb x y then Some 0%nat else option_map S (posicion_Z x l')
  end.

Fixpoint set_nth {A} (n : nat) (x : A) (l : list A) : list A :=
  match n, l with
  | _, [] => []
  | O, _ :: l' => x :: l'
  | S n', y :: l' => y :: set_nth n' x l'
  end.

(** The four writes [df.at[idx, col] = v] of one row.  [.at] addresses the
    row by its index label; a label absent from the index enlarges the
    frame with a new row carrying that label. *)
Definition at_set_fila (d : DataFrame) (idx : Z) (r : Registro) : DataFrame :=
  match posicion_Z idx (indice d) with
  | Some i => mkDataFrame (columns d) (indice d) (set_nth i r (filas d))
  | None => mkDataFrame (columns d) (indice d ++ [idx])%list (filas d ++ [r])%list
  end.

Definition en_rango (idx : Z) (d : DataFrame) : bool :=
  (0 <=? idx)%Z && (idx <? Z.of_nat (length (filas d)))%Z.

Definition modificar_registro (g : Gestor) (idx : Z) (especie : string)
  (cantidad año : Z) (provincia : string) : Gestor * Resultado :=
  if negb (en_rango idx (df g)) then (g, (false, "Índice inválido"))
  else match validar especie cantidad año provincia with
  | Some msg => (g, (false, msg))
  | None =>
      let r := mkRegistro (strip especie) cantidad año provincia in
      (mkGestor (at_set_fila (df g) idx r) (ruta_archivo g) true,
       (true, "Registro modificado correctamente"))
  end.

(** [df.drop(idx).reset_index(drop=True)]; [None] when [idx] is not an
    index label ([KeyError]). *)
Definition drop_reset (d : DataFrame) (idx : Z) : option DataFrame :=
  match posicion_Z idx (indice d) with
  | None => None
  | Some _ =>
      let rows := map snd (filter (fun p => negb (Z.eqb (fst p) idx))
                                  (combine (indice d) (filas d))) in
      Some (mkDataFrame (columns d) (range_index (length rows)) rows)
  end.

Definition eliminar_registro (g : Gestor) (idx : Z) : Gestor * Resultado :=
  if negb (en_rango idx (df g)) then (g, (false, "Índice inválido"))
  else match drop_reset (df g) idx with
  | None => (g, (false, "Error: " ++ str_Z idx))
  | Some d => (mkGestor d (ruta_archivo g) true,
               (true, "Registro eliminado correctamente"))
  end.

(** [GestorAnimales.guardar_excel]; [escritura] is the outcome of
    [self.df.to_excel(ruta_final)]: [None] on success, or the text of the
    exception it raised. *)
Definition guardar_excel (g : Gestor) (ruta : option string)
  (escritura : option string) : Gestor * Resultado :=
  let ruta_final :=
    match ruta with
    | Some r => if String.eqb r "" then ruta_archivo g else Some r
    | None => ruta_archivo g
    end in
  match ruta_final with
  | None => (g, (false, "No se especificó una ruta de archivo"))
  | Some rf =>
      if String.eqb rf "" then (g, (false, "No se especificó una ruta de archivo"))
      else match escritura with
           | Some err => (g, (false, "Error al guardar: " ++ err))
           | None => (mkGestor (df g) (Some rf) false,
                      (true, "Archivo guardado exitosamente"))
           end
  end.

(** The states of a [GestorAnimales] reachable from its construction through
    its public operations. *)
Inductive alcanzable : Gestor -> Prop :=
| alc_inicial : alcanzable gestor_inicial
| alc_cargar g ruta lectura :
    alcanzable g -> alcanzable (fst (cargar_excel g ruta lectura))
| alc_guardar g ruta escritura :
    alcanzable g -> alcanzable (fst (guardar_excel g ruta escritura))
| alc_agregar g e c a p :
    alcanzable g -> alcanzable (fst (agregar_registro g e c a p))
| alc_modificar g i e c a p :
    alcanzable g -> alcanzable (fst (modificar_registro g i e c a p))
| alc_eliminar g i :
    alcanzable g -> alcanzable (fst (eliminar_registro g i)).

(* ------------------------------------------------------------------ *)
(** ** [GestorAnimales.obtener_especies] and [obtener_datos_especie] *)

(** Python's [<=] on [str]: code-point lexicographic order, i.e. byte order
    of the UTF-8 encodings. *)
Fixpoint str_leb (a b : string) : bool :=
  match a, b with
  | EmptyString, _ => true
  | String _ _, EmptyString => false
  | String x a', String y b' =>
      if (byte_of x <? byte_of y)%N then true
      else if (byte_of x =? byte_of y)%N then str_leb a' b'
      else false
  end.

(** [Series.unique()]: distinct values in order of first occurrence. *)
Fixpoint unique_acc (vistos : list string) (l : list string) : list string :=
  match l with
  | [] => []
  | x :: l' => if list_in x vistos then unique_acc vistos l'
               else x :: unique_acc (x :: vistos) l'
  end.

Definition unique (l : list string) : list string := unique_acc [] l.

Fixpoint insertar (x : string) (l : list string) : list string :=
  match l with
  | [] => [x]
  | y :: l' => if str_leb x y then x :: l else y :: insertar x l'
  end.

(** [sorted(...)] on a list of [str]. *)
Definition sorted_str (l : list string) : list string := fold_right insertar [] l.

(** [if self.df.empty: return []] /
    [sorted(self.df["Especie"].dropna().unique().tolist())]; the column holds
    [str] values only, so [dropna] keeps all of them. *)
Definition obtener_especies (g : Gestor) : list string :=
  if df_empty (df g) then []
  else sorted_str (unique (map Especie (filas (df g)))).

(** [self.df[self.df["Especie"] == especie].copy()] *)
Definition obtener_datos_especie (g : Gestor) (especie : string) : list Registro :=
  filter (fun r => String.eqb (Especie r) especie) (filas (df g)).

(* ------------------------------------------------------------------ *)
(** ** Group sums, numeric routines and rounding *)

Section Agrupar.
Variable K : Type.
Variable eqb ltb : K -> K -> bool.

(** Adds [v] to the sum of key [k] in a key-sorted association list. *)
Fixpoint sumar_en (k : K) (v : Z) (l : list (K * Z)) : list (K * Z) :=
  match l with
  | [] => [(k, v)]
  | (k', v') :: l' =>
      if eqb k k' then (k', (v' + v)%Z) :: l'
      else if ltb k k' then (k, v) :: l
      else (k', v') :: sumar_en k v l'
  end.

(** [groupby(key)["Cantidad"].sum().sort_index()] *)
Definition agrupar_suma (key : Registro -> K) (rs : list Registro) : list (K * Z) :=
  fold_left (fun acc r => sumar_en (key r) (Cantidad r) acc) rs [].
End Agrupar.

Arguments sumar_en {K} eqb ltb k v l.
Arguments agrupar_suma {K} eqb ltb key rs.

Definition str_ltb (a b : string) : bool := str_leb a b && negb (String.eqb a b).

Definition por_año (rs : list Registro) : list (Z * Z) :=
  agrupar_suma Z.eqb Z.ltb Año rs.

Definition por_provincia (rs : list Registro) : list (string * Z) :=
  agrupar_suma String.eqb str_ltb Provincia rs.

Definition sumaQ (l : list Q) : Q := fold_right Qplus 0 l.

(** The exact least-squares line through the points: its slope and its
    intercept. [np.polyfit(x, y, 1)] approximates it in float64; it serves
    as a reference to state how close numpy's result is. *)
Definition polyfit1 (pts : list (Z * Z)) : Q * Q :=
  let n := inject_Z (Z.of_nat (length pts)) in
  let xs := map (fun p => inject_Z (fst p)) pts in
  let ys := map (fun p => inject_Z (snd p)) pts in
  let sx := sumaQ xs in
  let sy := sumaQ ys in
  let sxx := sumaQ (map (fun x => x * x) xs) in
  let sxy := sumaQ (map (fun p => inject_Z (fst p) * inject_Z (snd p)) pts) in
  let pendiente := (n * sxy - sx * sy) / (n * sxx - sx * sx) in
  (pendiente, (sy - pendiente * sx) / n).

(** The exact value of a degree-1 polynomial [coef] at [x]. *)
Definition polyval1 (coef : Q * Q) (x : Z) : Q :=
  fst coef * inject_Z x + snd coef.

(** The numeric routines of numpy and pandas the statistics call. They
    compute in float64 (np.polyfit through a LAPACK least-squares solve), so
    their results are left as parameters, constrained only by the hypotheses
    of the theorems that need them:
    - [polyfit pts]: [np.polyfit(x, y, 1)] on the points [(x_i, y_i)] as
      [(slope, intercept)]; [None] when the call raises (numpy refuses arrays
      of [object] dtype) or a coefficient is not finite (then every
      [int(round(np.polyval(...)))] after it raises as well);
    - [polyval coef x]: the float value of [np.polyval(coef, x)]; [None]
      when it is not finite ([int(round(...))] raises on it);
    - [media cs]: the float value of [.mean()] on a column holding the
      counts [cs]. *)
Record Numerico : Type := mkNumerico {
  polyfit : list (Z * Z) -> option (Q * Q);
  polyval : Q * Q -> Z -> option Q;
  media : list Z -> Q
}.

Definition media_exacta (cs : list Z) : Q :=
  inject_Z (fold_right Z.add 0%Z cs) / inject_Z (Z.of_nat (length cs)).

(** The routines computed exactly, with no rounding. *)
Definition numerico_exacto : Numerico :=
  mkNumerico (fun pts => Some (polyfit1 pts)) (fun c x => Some (polyval1 c x))
             media_exacta.

(** Python's [round] on a float: to the nearest integer, ties to even. *)
Definition round_py (q : Q) : Z :=
  let f := Qfloor q in
  let d := q - inject_Z f in
  if Qlt_le_dec d (1 # 2) then f
  else if Qlt_le_dec (1 # 2) d then (f + 1)%Z
  else if Z.even f then f else (f + 1)%Z.

(** Python's [int] on a finite float: truncation toward zero. *)
Definition int_py (q : Q) : Z := Z.quot (Qnum q) (Zpos (Qden q)).

(** [int(x.max())] *)
Definition max_año (pts : list (Z * Z)) : Z :=
  fold_left Z.max (map fst pts) (fst (hd (0%Z, 0%Z) pts)).

(** A loop over a list whose body may raise: [None] as soon as one
    iteration does. *)
Fixpoint map_opt {A B : Type} (f : A -> option B) (l : list A) : option (list B) :=
  match l with
  | [] => Some []
  | x :: l' =>
      match f x with
      | None => None
      | Some y => option_map (cons y) (map_opt f l')
      end
  end.

(** The outcome of a call that may raise, return nothing, or return a value. *)
Inductive Salida (A : Type) : Type :=
| Lanza
| Vacio
| Listo (a : A).
Arguments Lanza {A}.
Arguments Vacio {A}.
Arguments Listo {A} a.

(* ------------------------------------------------------------------ *)
(** ** [GestorAnimales.calcular_estadisticas] *)

Record Estadisticas : Type := mkEstadisticas {
  promedio : Z;
  total : Z;
  registros : nat;
  tendencia : string;
  proyecciones : list (Z * Z);
  est_por_año : list (Z * Z);
  est_por_provincia : list (string * Z)
}.

Definition clasificar (pendiente : Q) : string :=
  if Qlt_le_dec 5 pendiente then "Aumento significativo"
  else if Qlt_le_dec 0 pendiente then "Aumento moderado"
  else if Qlt_le_dec pendiente (-5) then "Disminución significativa"
  else if Qlt_le_dec pendiente 0 then "Disminución moderada"
  else "Estable".

Section Estadistica.
Variable np : Numerico.

(** The loop [for i in range(1, 4)] of the stricter variant. *)
Definition proyectar_clamp (coef : Q * Q) (ultimo : Z) : option (list (Z * Z)) :=
  map_opt (fun i => let año_futuro := (ultimo + i)%Z in
                    option_map (fun v => (año_futuro, Z.max 0 (round_py v)))
                               (polyval np coef año_futuro))
          [1; 2; 3]%Z.

(** The trend and the projections; [None] when np.polyfit or a projection
    raises. *)
Definition tendencia_y_proyecciones (pa : list (Z * Z))
  : option (string * list (Z * Z)) :=
  if (1 <? length pa)%nat then
    match polyfit np pa with
    | None => None
    | Some coef =>
        option_map (fun proy => (clasificar (fst coef), proy))
                   (proyectar_clamp coef (max_año pa))
    end
  else Some ("Datos insuficientes", []).

(** [datos["Cantidad"].sum()], exact: int64 wrap-around is not modelled,
    and the theorems about sums assume it does not happen. *)
Definition suma_cantidades (rs : list Registro) : Z :=
  fold_right (fun r acc => (Cantidad r + acc)%Z) 0%Z rs.

(** [Vacio] is the early [return {}]; [Lanza] an exception. *)
Definition calcular_estadisticas (g : Gestor) (especie : string)
  : Salida Estadisticas :=
  let datos := obtener_datos_especie g especie in
  match datos with
  | [] => Vacio
  | _ =>
      let pa := por_año datos in
      match tendencia_y_proyecciones pa with
      | None => Lanza
      | Some (tend, proy) =>
          Listo (mkEstadisticas
                   (* int(datos["Cantidad"].mean()) *)
                   (int_py (media np (map Cantidad datos)))
                   (suma_cantidades datos)
                   (length datos)
                   tend proy pa (por_provincia datos))
      end
  end.
End Estadistica.

(** The sum of the absolute counts: below [2 ^ 63] no int64 sum of the
    counts wraps around, so [por_año] holds the arrays numpy receives. *)
Definition suma_abs (rs : list Registro) : Z :=
  fold_right (fun r acc => (Z.abs (Cantidad r) + acc)%Z) 0%Z rs.

(* ------------------------------------------------------------------ *)
(** ** The simpler variants of the report (src/proyecto.py,
    src/AppAnimales/funciones_pdf.py) *)

Module Proyecto.
(** The conclusion drawn from the slope [pendiente = coef[0]]. *)
Definition conclusion (pendiente : Q) : string :=
  if Qlt_le_dec 0 pendiente then "La población tiende a aumentar."
  else if Qlt_le_dec pendiente 0 then "La población tiende a disminuir."
  else "La población se mantiene estable.".

(** The loop [for i in range(1, 4)] filling [proyeccion_tabla]. *)
Definition tabla_proyeccion (np : Numerico) (coef : Q * Q) (ult_a : Z)
  : option (list (Z * Z)) :=
  map_opt (fun i => option_map (fun v => ((ult_a + i)%Z, round_py v))
                               (polyval np coef (ult_a + i)))
          [1; 2; 3]%Z.

(** The conclusion and the projection table of [generar_informe(especie)]
    over the rows [df] of the module-level frame; [Vacio] when the species
    has no rows (the error dialog), [Lanza] when np.polyfit or a projection
    raises. *)
Definition generar_informe (np : Numerico) (df : list Registro) (especie : string)
  : Salida (string * list (Z * Z)) :=
  let filtrado := filter (fun r => String.eqb (Especie r) especie) df in
  match filtrado with
  | [] => Vacio
  | _ =>
      let serie := por_año filtrado in
      if (1 <? length serie)%nat then
        match polyfit np serie with
        | None => Lanza
        | Some coef =>
            let ult_a := max_año serie in
            match tabla_proyeccion np coef ult_a with
            | None => Lanza
            | Some tabla => Listo (conclusion (fst coef), tabla)
            end
        end
      else Listo ("No hay suficientes datos para proyectar tendencia.", [])
  end.
End Proyecto.

Module FuncionesPdf.
(** [promedio = int(round(filtrado["Cantidad"].mean()))] of
    [generar_informe]; [None] when the species has no rows. *)
Definition promedio_informe (np : Numerico) (df : list Registro) (especie : string)
  : option Z :=
  let filtrado := filter (fun r => String.eqb (Especie r) especie) df in
  match filtrado with
  | [] => None
  | _ => Some (round_py (media np (map Cantidad filtrado)))
  end.
End FuncionesPdf.

(* ------------------------------------------------------------------ *)
(** ** Sample data *)

Definition r0 (e : string) (c a : Z) : Registro := mkRegistro e c a "Panamá".

(** A manager holding the rows [rs] under the default index. *)
Definition gestor_de (rs : list Registro) : Gestor :=
  mkGestor (mkDataFrame COLUMNAS_REQUERIDAS (range_index (length rs)) rs) None false.

(** The manager after three [agregar_registro] calls on a fresh one. *)
Definition gestor_tres_años : Gestor :=
  fst (agregar_registro
         (fst (agregar_registro
                 (fst (agregar_registro gestor_inicial "Jaguar" 10 2020 "Panamá"))
                 "Jaguar" 20 2021 "Panamá"))
         "Jaguar" 30 2022 "Panamá").

(** A sheet with the four columns: one row per [(especie, cantidad, año,
    provincia)], text and integer cells. *)
Definition hoja_de_valores (vs : list (string * Z * Z * string)) : Hoja :=
  mkHoja COLUMNAS_REQUERIDAS
    (map (fun '(e, c, a, p) => [CStr e; CInt c; CInt a; CStr p]) vs).

(** The manager after loading the sheet [h] from "datos.xlsx". *)
Definition gestor_cargado (h : Hoja) : Gestor :=
  fst (cargar_excel gestor_inicial "datos.xlsx" (inr h)).

(** Counts 10, 20 and 30 of one species in 2020, 2021 and 2022, loaded
    from a sheet. *)
Definition gestor_cargado_tres_años : Gestor :=
  gestor_cargado (hoja_de_valores
    [("Jaguar", 10, 2020, "Panamá"); ("Jaguar", 20, 2021, "Panamá");
     ("Jaguar", 30, 2022, "Panamá")]%Z).

(** Counts 0, 0 and 2 of one species, all in 2020, loaded from a sheet. *)
Definition gestor_0_0_2 : Gestor :=
  gestor_cargado (hoja_de_valores
    [("Jaguar", 0, 2020, "Panamá"); ("Jaguar", 0, 2020, "Panamá");
     ("Jaguar", 2, 2020, "Panamá")]%Z).

(** Two rows whose yearly sums decrease. *)
Definition datos_decrecientes : list Registro :=
  [r0 "Jaguar" 30 2020; r0 "Jaguar" 10 2021].

(** A sheet without a "Provincia" column. *)
Definition hoja_sin_provincia : Hoja :=
  mkHoja ["Especie"; "Cantidad"; "Año"] [[CStr "Jaguar"; CInt 5; CInt 2020]].

(** A sheet without an "Especie" column. *)
Definition hoja_sin_especie : Hoja :=
  mkHoja ["Cantidad"; "Año"; "Provincia"] [[CInt 5; CInt 2020; CStr "Colón"]].

(** The dataset invariant maintained by [GestorAnimales]: the four required
    columns in order and the default [RangeIndex]. *)
Definition wf (d : DataFrame) : Prop :=
  columns d = COLUMNAS_REQUERIDAS /\ indice d = range_index (length (filas d)).

(* ------------------------------------------------------------------ *)
(** ** Python's [int()] on a text *)

(** Decimal digits with single underscores between them, the syntax [int()]
    accepts; [previo] tells whether the last character read was a digit. *)
Fixpoint leer_entero (s : string) (acc : Z) (previo : bool) : option Z :=
  match s with
  | EmptyString => if previo then Some acc else None
  | String c r =>
      match digit_val c with
      | Some d => leer_entero r (10 * acc + d) true
      | None => if previo && Ascii.eqb c "_"%char then leer_entero r acc false
                else None
      end
  end.

(** [int(texto)] on an ASCII text: surrounding whitespace, an optional sign,
    then the digits; [None] where Python raises [ValueError]. *)
Definition py_int (texto : string) : option Z :=
  match strip texto with
  | String "-"%char r => option_map Z.opp (leer_entero r 0 false)
  | String "+"%char r => leer_entero r 0 false
  | t => leer_entero t 0 false
  end.

(* ------------------------------------------------------------------ *)
(** ** The edit dialog and the window actions of [InterfazPrincipal]
    (src/main.py) *)

(** The values [_abrir_dialogo_edicion] shows for the row [fila]: each
    combobox holds the current value when it is one of its options and its
    first option otherwise; each entry holds [str(fila[col])]. *)
Definition valores_dialogo (fila : Registro) : string * string * string * string :=
  (if list_in (Especie fila) ESPECIES_PANAMA then Especie fila
   else hd "" ESPECIES_PANAMA,
   str_Z (Cantidad fila),
   str_Z (Año fila),
   if list_in (Provincia fila) PROVINCIAS_PANAMA then Provincia fila
   else hd "" PROVINCIAS_PANAMA).

(** The [guardar] callback of the edit dialog of row [idx], on the texts of
    its four widgets. *)
Definition guardar_edicion (g : Gestor) (idx : Z)
  (especie cantidad año provincia : string) : Gestor * Resultado :=
  match py_int cantidad, py_int año with
  | Some c, Some a => modificar_registro g idx especie c a provincia
  | _, _ => (g, (false, "Cantidad y Año deben ser números enteros"))
  end.

(** Python truthiness of [self.gestor.ruta_archivo]. *)
Definition ruta_verdadera (o : option string) : bool :=
  match o with
  | Some r => negb (String.eqb r "")
  | None => false
  end.

(** [_accion_guardar]; [dialogo] is what [asksaveasfilename] returns (""
    when cancelled) and [escritura] the outcome of [to_excel].  [None] when
    no save is attempted: the "No hay datos para guardar" warning or a
    cancelled dialog. *)
Definition accion_guardar (g : Gestor) (dialogo : string) (escritura : option string)
  : Gestor * option Resultado :=
  if df_empty (df g) then (g, None)
  else if ruta_verdadera (ruta_archivo g) then
    let '(g', res) := guardar_excel g None escritura in (g', Some res)
  else if String.eqb dialogo "" then (g, None)
  else let '(g', res) := guardar_excel g (Some dialogo) escritura in (g', Some res).

(** The answer to [askyesnocancel]: yes, no, or [None] (cancel). *)
Inductive Respuesta : Type := Si | No | Cancelar.

(** [_on_closing]; the boolean tells whether the window is closed.  The
    outcome of [guardar_excel] is not inspected. *)
Definition on_closing (g : Gestor) (respuesta : Respuesta) (dialogo : string)
  (escritura : option string) : Gestor * bool :=
  if cambios_sin_guardar g then
    match respuesta with
    | Cancelar => (g, false)
    | Si =>
        if ruta_verdadera (ruta_archivo g) then (fst (guardar_excel g None escritura), true)
        else if negb (String.eqb dialogo "") then
          (fst (guardar_excel g (Some dialogo) escritura), true)
        else (g, false)
    | No => (g, true)
    end
  else (g, true).

(* ------------------------------------------------------------------ *)
(** ** Row-level facts of the model *)

(** [lstrip] on the character list of a string. *)
Fixpoint lstrip_l (l : list ascii) : list ascii :=
  match l with
  | [] => []
  | c :: r => if is_space c then lstrip_l r else l
  end.

(** A row as the load normalisation leaves it: trimmed species, province
    left as is by [corregir_provincia]. *)
Definition fila_normal (r : Registro) : Prop :=
  strip (Especie r) = Especie r /\ corregir_provincia (Provincia r) = Provincia r.

(** Sum of the values of a group-sum table. *)
Definition suma_valores {K} (l : list (K * Z)) : Z :=
  fold_right (fun p acc => (snd p + acc)%Z) 0%Z l.

(* ------------------------------------------------------------------ *)
(** ** The module-level variant of src/AppAnimales (utils.py) *)

Module AppAnimales.

(** A row of [datos_globales.df]: its cells as they were read or written
    (the module does not normalise [Especie] or [Provincia]). *)
Record Fila : Type := mkFila {
  a_especie : celda;
  a_cantidad : celda;
  a_anio : celda;
  a_provincia : celda
}.

(** Element-wise [==] of pandas: [NaN] equals nothing, an [int] never
    equals a [str]. *)
Definition celda_eq (a b : celda) : bool :=
  match a, b with
  | CInt x, CInt y => Z.eqb x y
  | CStr s, CStr t => String.eqb s t
  | _, _ => false
  end.

(** The conjunction [condiciones] of the four column comparisons. *)
Definition fila_eq (fila r : Fila) : bool :=
  celda_eq (a_especie r) (a_especie fila) && celda_eq (a_cantidad r) (a_cantidad fila) &&
  celda_eq (a_anio r) (a_anio fila) && celda_eq (a_provincia r) (a_provincia fila).

Fixpoint primer_indice {A} (p : A -> bool) (l : list A) : option nat :=
  match l with
  | [] => None
  | x :: l' => if p x then Some 0%nat else option_map S (primer_indice p l')
  end.

(** [df.drop(label)] followed by [reset_index(drop=True)] on a frame with
    the default index: the row at that position goes. *)
Fixpoint quitar {A} (n : nat) (l : list A) : list A :=
  match n, l with
  | _, [] => []
  | O, _ :: l' => l'
  | S n', x :: l' => x :: quitar n' l'
  end.

(** [df["Especie"] = df["Especie"].astype(str)] on one row. *)
Definition especie_str (f : Fila) : Fila :=
  mkFila (CStr (astype_str (a_especie f))) (a_cantidad f) (a_anio f) (a_provincia f).

(** The start of [abrir_dialogo_modificar_eliminar(idx)]: the frame after the
    conversion of its [Especie] column, and the selected row [iloc[idx]]
    ([None]: "Selección inválida."). *)
Definition abrir_dialogo (df : list Fila) (idx : nat) : list Fila * option Fila :=
  let df' := map especie_str df in (df', nth_error df' idx).

(** [accion_eliminar] of the dialog opened on row [fila] at position [idx]:
    the frame afterwards, or the error message. *)
Definition accion_eliminar (df : list Fila) (fila : Fila) (idx : nat)
  : string + list Fila :=
  match primer_indice (fila_eq fila) df with
  | Some j => inr (quitar j df)
  | None => if Nat.ltb idx (length df) then inr (quitar idx df)
            else inl "No se pudo eliminar el registro."
  end.

(** [guardar_cambios] of the dialog opened on row [fila] at position [idx],
    on the texts of its four entries. *)
Definition guardar_cambios (df : list Fila) (fila : Fila) (idx : nat)
  (nombre cantidad anio prov : string) : string + list Fila :=
  match py_int cantidad, py_int anio with
  | Some c, Some a =>
      let nueva := mkFila (CStr (strip nombre)) (CInt c) (CInt a) (CStr (strip prov)) in
      match primer_indice (fila_eq fila) df with
      | Some j => inr (set_nth j nueva df)
      | None => if Nat.ltb idx (length df) then inr (set_nth idx nueva df)
                else inl "No se pudo guardar"
      end
  | _, _ => inl "Cantidad y Año deben ser números enteros."
  end.

(** [actualizar_species_list()] on the [Especie] column of the frame (the
    frame always has its four columns, so it is empty exactly when it has
    no rows); src/proyecto.py has the same function. *)
Definition actualizar_species_list (especies : list celda) : list string :=
  match especies with
  | [] => []
  | _ => sorted_str (unique (map astype_str
           (filter (fun c => match c with CNaN => false | _ => true end) especies)))
  end.

(** [agregar_animal] on the texts of the four entries (each stripped): the
    frame after [pd.concat] of the new row, or the error message. *)
Definition agregar_animal (df : list Fila) (nombre cantidad anio provincia : string)
  : string + list Fila :=
  let especie := strip nombre in
  if String.eqb especie "" then inl "Ingrese el nombre de la especie."
  else match py_int (strip cantidad), py_int (strip anio) with
  | Some c, Some a =>
      inr (df ++ [mkFila (CStr especie) (CInt c) (CInt a) (CStr (strip provincia))])%list
  | _, _ => inl "Cantidad y Año deben ser números enteros."
  end.

End AppAnimales.

(* ================================================================== *)
(** * Lemmas *)

(** Sample evaluations of the model. *)
Example corregir_ex1 : corregir_provincia "  chiriqui" = "chiriqui".
Proof. reflexivity. Qed.
Example corregir_ex2 : corregir_provincia "CHIRIQUÍ" = "Chiriquí".
Proof. reflexivity. Qed.
Example corregir_ex3 : corregir_provincia "" = "Bocas del Toro".
Proof. reflexivity. Qed.
Example corregir_ex4 : corregir_provincia " Coclé " = "Coclé".
Proof. reflexivity. Qed.

Example str_Z_ex : str_Z (-2020) = "-2020".
Proof. reflexivity. Qed.
Example parse_num_ex : fillna0_astype_int (to_numeric (CStr "-12.5")) = (-12)%Z.
Proof. reflexivity. Qed.

Example calcular_estadisticas_gestor_tres_años :
  match calcular_estadisticas numerico_exacto gestor_cargado_tres_años "Jaguar" with
  | Listo s => Some (tendencia s, proyecciones s)
  | _ => None
  end
  = Some ("Aumento significativo", [(2023, 40); (2024, 50); (2025, 60)]%Z).
Proof. vm_compute. reflexivity. Qed.

Lemma posicion_Z_seq (s n k : nat) :
  (k < n)%nat ->
  posicion_Z (Z.of_nat (s + k)) (map Z.of_nat (seq s n)) = Some k.
Proof.
  revert s k. induction n as [|n IH]; intros s k Hk; [lia|].
  simpl. destruct (Z.eqb_spec (Z.of_nat (s + k)) (Z.of_nat s)) as [E|E].
  - assert (k = 0%nat) by lia. subst. reflexivity.
  - destruct k as [|k]; [lia|].
    replace (s + S k)%nat with (S s + k)%nat by lia.
    rewrite IH by lia. reflexivity.
Qed.

Lemma posicion_range_index (n : nat) (i : Z) :
  (0 <= i < Z.of_nat n)%Z ->
  posicion_Z i (range_index n) = Some (Z.to_nat i).
Proof.
  intros Hi. unfold range_index.
  rewrite <- (Z2Nat.id i) at 1 by lia.
  apply (posicion_Z_seq 0 n (Z.to_nat i)). lia.
Qed.

Lemma posicion_wf (d : DataFrame) (i : Z) :
  wf d -> en_rango i d = true -> posicion_Z i (indice d) = Some (Z.to_nat i).
Proof.
  intros [_ Hi] Hr. unfold en_rango in Hr.
  apply andb_true_iff in Hr as [H1 H2].
  apply Z.leb_le in H1. apply Z.ltb_lt in H2.
  rewrite Hi. apply posicion_range_index. lia.
Qed.

Lemma length_set_nth {A} (n : nat) (x : A) (l : list A) :
  length (set_nth n x l) = length l.
Proof.
  revert n. induction l as [|y l IH]; intros [|n]; simpl; auto.
Qed.

Lemma nth_error_set_nth_eq {A} (n : nat) (x : A) (l : list A) :
  (n < length l)%nat -> nth_error (set_nth n x l) n = Some x.
Proof.
  revert n. induction l as [|y l IH]; intros [|n] Hn; simpl in *; try lia; auto.
  apply IH. lia.
Qed.

Lemma nth_error_set_nth_neq {A} (n m : nat) (x : A) (l : list A) :
  n <> m -> nth_error (set_nth n x l) m = nth_error l m.
Proof.
  revert n m. induction l as [|y l IH]; intros [|n] [|m] Hnm; simpl; auto.
  all: first [lia | apply IH; lia].
Qed.

Lemma strip_especie (e : string) :
  list_in e ESPECIES_PANAMA = true -> strip e = e.
Proof.
  unfold list_in, ESPECIES_PANAMA. simpl. intros H.
  repeat (apply orb_true_iff in H; destruct H as [H|H];
          [apply String.eqb_eq in H; subst; reflexivity|]).
  discriminate.
Qed.

Lemma validar_ok (e : string) (c a : Z) (p : string) :
  validar e c a p = None -> list_in e ESPECIES_PANAMA = true.
Proof.
  unfold validar.
  destruct (String.eqb e "" || String.eqb (strip e) ""); [discriminate|].
  destruct (list_in e ESPECIES_PANAMA); [reflexivity|discriminate].
Qed.

Lemma wf_inicial : wf (df gestor_inicial).
Proof. split; reflexivity. Qed.

Lemma wf_cargar g ruta lectura :
  wf (df g) -> wf (df (fst (cargar_excel g ruta lectura))).
Proof.
  intros H. destruct lectura as [err|h]; simpl; [exact H|].
  split; reflexivity.
Qed.

Lemma wf_guardar g ruta escritura :
  wf (df g) -> wf (df (fst (guardar_excel g ruta escritura))).
Proof.
  intros H. unfold guardar_excel.
  destruct (match ruta with
            | Some r => if String.eqb r "" then ruta_archivo g else Some r
            | None => ruta_archivo g end) as [rf|]; [|exact H].
  destruct (String.eqb rf ""); [exact H|].
  destruct escritura; exact H.
Qed.

Lemma wf_agregar g e c a p :
  wf (df g) -> wf (df (fst (agregar_registro g e c a p))).
Proof.
  intros [Hc Hi]. unfold agregar_registro.
  destruct (validar e c a p); [split; assumption|].
  simpl. unfold concat_fila. split; simpl.
  - rewrite Hc. reflexivity.
  - reflexivity.
Qed.

Lemma wf_modificar g i e c a p :
  wf (df g) -> wf (df (fst (modificar_registro g i e c a p))).
Proof.
  intros Hw. unfold modificar_registro.
  destruct (en_rango i (df g)) eqn:Hr; simpl; [|exact Hw].
  destruct (validar e c a p); [exact Hw|]. simpl.
  unfold at_set_fila. rewrite (posicion_wf _ _ Hw Hr).
  destruct Hw as [Hc Hi]. split; simpl; [exact Hc|].
  rewrite length_set_nth. exact Hi.
Qed.

Lemma wf_eliminar g i :
  wf (df g) -> wf (df (fst (eliminar_registro g i))).
Proof.
  intros Hw. unfold eliminar_registro.
  destruct (en_rango i (df g)); simpl; [|exact Hw].
  unfold drop_reset. destruct (posicion_Z i (indice (df g))); simpl; [|exact Hw].
  split; simpl; [apply Hw | reflexivity].
Qed.

Lemma alcanzable_wf g : alcanzable g -> wf (df g).
Proof.
  induction 1.
  - apply wf_inicial.
  - apply wf_cargar; assumption.
  - apply wf_guardar; assumption.
  - apply wf_agregar; assumption.
  - apply wf_modificar; assumption.
  - apply wf_eliminar; assumption.
Qed.

Lemma sumar_en_claves (k y v : Z) (l : list (Z * Z)) :
  In y (map fst (sumar_en Z.eqb Z.ltb k v l)) <-> y = k \/ In y (map fst l).
Proof.
  induction l as [|[k' v'] l IH]; simpl.
  - intuition.
  - destruct (Z.eqb_spec k k') as [E|E]; [subst; simpl; intuition|].
    destruct (Z.ltb k k'); simpl; [intuition|].
    rewrite IH. intuition.
Qed.

Lemma por_año_claves_acc (rs : list Registro) (acc : list (Z * Z)) (y : Z) :
  In y (map fst (fold_left (fun acc r => sumar_en Z.eqb Z.ltb (Año r) (Cantidad r) acc) rs acc))
  <-> In y (map fst acc) \/ exists r, In r rs /\ Año r = y.
Proof.
  revert acc. induction rs as [|r rs IH]; intros acc; simpl.
  - split; [intuition | intros [H|[r [[] _]]]; exact H].
  - rewrite IH, sumar_en_claves. split.
    + intros [[H|H]|[r' [H1 H2]]]; [right; exists r; auto | left; exact H |
                                    right; exists r'; auto].
    + intros [H|[r' [[H1|H1] H2]]]; [left; right; exact H | subst; left; left; reflexivity |
                                     right; exists r'; auto].
Qed.

Lemma por_año_claves (rs : list Registro) (y : Z) :
  In y (map fst (por_año rs)) <-> exists r, In r rs /\ Año r = y.
Proof.
  unfold por_año, agrupar_suma. rewrite por_año_claves_acc. simpl. intuition.
Qed.

Lemma dos_distintos {A} (l : list A) (a b : A) :
  In a l -> In b l -> a <> b -> (1 < length l)%nat.
Proof.
  destruct l as [|x [|y l]]; simpl; intros Ha Hb Hab; try lia.
  destruct Ha as [Ha|[]]; destruct Hb as [Hb|[]]; congruence.
Qed.

Lemma por_año_un_año (rs : list Registro) (y : Z) :
  (forall r, In r rs -> Año r = y) ->
  (length (por_año rs) <= 1)%nat.
Proof.
  intros Hy. unfold por_año, agrupar_suma.
  assert (Inv : forall acc, (acc = [] \/ exists s, acc = [(y, s)]) ->
    let res := fold_left (fun acc r => sumar_en Z.eqb Z.ltb (Año r) (Cantidad r) acc) rs acc in
    res = [] \/ exists s, res = [(y, s)]).
  { induction rs as [|r rs IH]; intros acc Hacc; simpl; [exact Hacc|].
    apply IH.
    - intros r' Hr'. apply Hy. right. exact Hr'.
    - rewrite (Hy r (or_introl eq_refl)). right.
      destruct Hacc as [->|[s ->]]; simpl.
      + exists (Cantidad r). reflexivity.
      + rewrite Z.eqb_refl. exists (s + Cantidad r)%Z. reflexivity. }
  destruct (Inv [] (or_introl eq_refl)) as [->|[s ->]]; simpl; lia.
Qed.

Lemma fold_max_eq (l : list Z) (init M : Z) :
  (forall x, In x (init :: l) -> (x <= M)%Z) -> In M (init :: l) ->
  fold_left Z.max l init = M.
Proof.
  revert init. induction l as [|x l IH]; intros init Hle Hin; simpl.
  - destruct Hin as [H|[]]. exact H.
  - apply IH.
    + intros z [Hz|Hz]; [|apply Hle; right; right; exact Hz].
      subst z. apply Z.max_lub; apply Hle; simpl; auto.
    + destruct Hin as [H|[H|H]].
      * left. subst. apply Z.max_l. apply Hle. simpl. auto.
      * left. subst. apply Z.max_r. apply Hle. simpl. auto.
      * right. exact H.
Qed.

Lemma max_año_eq (rs : list Registro) (M : Z) :
  (exists r, In r rs /\ Año r = M) -> (forall r, In r rs -> (Año r <= M)%Z) ->
  max_año (por_año rs) = M.
Proof.
  intros Hin Hle. unfold max_año.
  assert (Hc : In M (map fst (por_año rs))) by (apply por_año_claves; exact Hin).
  destruct (por_año rs) as [|p pa] eqn:E; [destruct Hc|].
  simpl. apply (fold_max_eq (fst p :: map fst pa)).
  - intros x Hx. assert (Hx' : In x (map fst (por_año rs))).
    { rewrite E. destruct Hx as [Hx|Hx]; [left; exact Hx | exact Hx]. }
    apply por_año_claves in Hx' as [r [Hr <-]]. apply Hle. exact Hr.
  - right. exact Hc.
Qed.

Lemma clasificar_spec (m : Q) :
  (clasificar m = "Aumento significativo" <-> 5 < m) /\
  (clasificar m = "Aumento moderado" <-> 0 < m /\ m <= 5) /\
  (clasificar m = "Disminución significativa" <-> m < -5) /\
  (clasificar m = "Disminución moderada" <-> -5 <= m /\ m < 0) /\
  (clasificar m = "Estable" <-> m == 0).
Proof.
  unfold clasificar.
  destruct (Qlt_le_dec 5 m);
    [|destruct (Qlt_le_dec 0 m);
      [|destruct (Qlt_le_dec m (-5));
        [|destruct (Qlt_le_dec m 0)]]];
    repeat split; intros; try discriminate; try reflexivity;
    try lra; exfalso; lra.
Qed.

(* ================================================================== *)
(** * Claims *)

(** C10: every dataset operation of [GestorAnimales] ([cargar_excel],
    [agregar_registro], [modificar_registro], [eliminar_registro], and
    [guardar_excel] as well) keeps the four columns Especie, Cantidad, Año,
    Provincia in that order and the row index 0..length-1; the constructor
    establishes it; and under it the label of an in-range position is that
    position, so the positional index used by the UI is the label index used
    by modify and delete. *)
Theorem gestor_invariante_columnas_indice :
  wf (df gestor_inicial) /\
  (forall g ruta lectura, wf (df g) -> wf (df (fst (cargar_excel g ruta lectura)))) /\
  (forall g e c a p, wf (df g) -> wf (df (fst (agregar_registro g e c a p)))) /\
  (forall g i e c a p, wf (df g) -> wf (df (fst (modificar_registro g i e c a p)))) /\
  (forall g i, wf (df g) -> wf (df (fst (eliminar_registro g i)))) /\
  (forall g ruta escritura, wf (df g) -> wf (df (fst (guardar_excel g ruta escritura)))) /\
  (forall g, alcanzable g -> wf (df g)) /\
  (forall d i, wf d -> (0 <= i < Z.of_nat (length (filas d)))%Z ->
     posicion_Z i (indice d) = Some (Z.to_nat i)).
Proof.
  split; [apply wf_inicial|].
  split; [intros; apply wf_cargar; assumption|].
  split; [intros; apply wf_agregar; assumption|].
  split; [intros; apply wf_modificar; assumption|].
  split; [intros; apply wf_eliminar; assumption|].
  split; [intros; apply wf_guardar; assumption|].
  split; [apply alcanzable_wf|].
  intros d i Hw Hi. apply posicion_wf; [exact Hw|].
  unfold en_rango. apply andb_true_iff. split; [apply Z.leb_le | apply Z.ltb_lt]; lia.
Qed.

Lemma gestor_invariante_columnas_indice_witness :
  wf (df (fst (agregar_registro gestor_inicial "Jaguar" 3 2020 "Colón"))) /\
  posicion_Z 0 (indice (df (fst (agregar_registro gestor_inicial "Jaguar" 3 2020 "Colón"))))
  = Some 0%nat.
Proof.
  pose proof gestor_invariante_columnas_indice as
    (H0 & Hc & Ha & Hm & He & Hg & Hr & Hp).
  split.
  - apply Ha. exact H0.
  - apply (Hp _ 0%Z). { apply Ha. exact H0. } cbn. lia.
Defined.

(** C7: on a reachable manager, [modificar_registro i] with [i] in
    [0, length) and fields that pass validation succeeds; afterwards row [i]
    holds exactly the new values, every other row is unchanged, the length,
    row order, index and columns are unchanged and the unsaved-changes flag is
    set.  For [i] outside [0, length) it fails with "Índice inválido" and
    leaves the manager unchanged. *)
Theorem modificar_registro_marco (g : Gestor) (Hg : alcanzable g)
  (i : Z) (e : string) (c a : Z) (p : string) :
  ((0 <= i < Z.of_nat (length (filas (df g))))%Z ->
   validar e c a p = None ->
   let '(g', res) := modificar_registro g i e c a p in
   res = (true, "Registro modificado correctamente") /\
   cambios_sin_guardar g' = true /\
   length (filas (df g')) = length (filas (df g)) /\
   nth_error (filas (df g')) (Z.to_nat i) = Some (mkRegistro e c a p) /\
   (forall j, j <> Z.to_nat i -> nth_error (filas (df g')) j = nth_error (filas (df g)) j) /\
   indice (df g') = indice (df g) /\ columns (df g') = columns (df g)) /\
  (~ (0 <= i < Z.of_nat (length (filas (df g))))%Z ->
   modificar_registro g i e c a p = (g, (false, "Índice inválido"))).
Proof.
  pose proof (alcanzable_wf g Hg) as Hw.
  split.
  - intros Hi Hv.
    assert (Hr : en_rango i (df g) = true).
    { unfold en_rango. apply andb_true_iff.
      split; [apply Z.leb_le | apply Z.ltb_lt]; lia. }
    unfold modificar_registro. rewrite Hr, Hv. simpl.
    unfold at_set_fila. rewrite (posicion_wf _ _ Hw Hr). simpl.
    rewrite (strip_especie e (validar_ok e c a p Hv)).
    split; [reflexivity|]. split; [reflexivity|].
    split; [apply length_set_nth|].
    split; [apply nth_error_set_nth_eq; lia|].
    split; [intros j Hj; apply nth_error_set_nth_neq; congruence|].
    split; reflexivity.
  - intros Hi. unfold modificar_registro.
    assert (Hr : en_rango i (df g) = false).
    { unfold en_rango. apply andb_false_iff.
      destruct (Z.leb_spec 0 i); [right; apply Z.ltb_ge; lia | left; reflexivity]. }
    rewrite Hr. reflexivity.
Qed.

Lemma modificar_registro_marco_witness :
  let g := gestor_tres_años in
  alcanzable g /\
  let '(g', res) := modificar_registro g 1 "Tapir Centroamericano" 7 2023 "Darién" in
  res = (true, "Registro modificado correctamente") /\
  nth_error (filas (df g')) 1 = Some (mkRegistro "Tapir Centroamericano" 7 2023 "Darién").
Proof.
  intros g.
  assert (Hg : alcanzable g).
  { repeat constructor. }
  split; [exact Hg|].
  destruct (modificar_registro_marco g Hg 1 "Tapir Centroamericano" 7 2023 "Darién")
    as [H _].
  specialize (H ltac:(cbn; lia) eq_refl).
  destruct (modificar_registro g 1 "Tapir Centroamericano" 7 2023 "Darién") as [g' res].
  destruct H as (H1 & _ & _ & H4 & _). split; assumption.
Defined.

Lemma validar_blanco (e : string) :
  (String.eqb e "" || String.eqb (strip e) "") = String.eqb (strip e) "".
Proof.
  destruct (String.eqb_spec e "") as [E|E]; [subst; reflexivity | reflexivity].
Qed.

(** C6 (counterexample): a whitespace-only species is non-empty and not in
    the allowed set, yet [agregar_registro] reports the first message
    ("Debe seleccionar una especie"), not the allowed-set one. *)
Lemma agregar_registro_especie_blanca :
  " " <> "" /\ list_in " " ESPECIES_PANAMA = false /\
  agregar_registro gestor_inicial " " 5 2020 "Colón"
  = (gestor_inicial, (false, "Debe seleccionar una especie")) /\
  "Debe seleccionar una especie" <> "Especie no válida. Debe seleccionar de la lista".
Proof.
  split; [discriminate|]. split; [reflexivity|]. split; [reflexivity|]. discriminate.
Qed.

(** C6 (amended): [agregar_registro] checks, in this order, that the species
    is not blank (empty after [strip]), that it is one of the allowed
    species, that the count is not negative, that the year lies in
    1900..2100 and that the province is one of the ten provinces; the first
    failing check returns its own message (the five messages are distinct)
    and leaves the manager unchanged.  When every check passes exactly one
    row is appended after the existing ones and the unsaved-changes flag is
    set. *)
Theorem agregar_registro_orden_validacion (g : Gestor) (e : string) (c a : Z) (p : string) :
  NoDup [ "Debe seleccionar una especie";
          "Especie no válida. Debe seleccionar de la lista";
          "La cantidad debe ser positiva";
          "El año debe estar entre 1900 y 2100";
          "Provincia no válida" ] /\
  (strip e = "" ->
   agregar_registro g e c a p = (g, (false, "Debe seleccionar una especie"))) /\
  (strip e <> "" -> list_in e ESPECIES_PANAMA = false ->
   agregar_registro g e c a p
   = (g, (false, "Especie no válida. Debe seleccionar de la lista"))) /\
  (strip e <> "" -> list_in e ESPECIES_PANAMA = true -> (c < 0)%Z ->
   agregar_registro g e c a p = (g, (false, "La cantidad debe ser positiva"))) /\
  (strip e <> "" -> list_in e ESPECIES_PANAMA = true -> (0 <= c)%Z ->
   ~ (1900 <= a <= 2100)%Z ->
   agregar_registro g e c a p = (g, (false, "El año debe estar entre 1900 y 2100"))) /\
  (strip e <> "" -> list_in e ESPECIES_PANAMA = true -> (0 <= c)%Z ->
   (1900 <= a <= 2100)%Z -> list_in p PROVINCIAS_PANAMA = false ->
   agregar_registro g e c a p = (g, (false, "Provincia no válida"))) /\
  (strip e <> "" -> list_in e ESPECIES_PANAMA = true -> (0 <= c)%Z ->
   (1900 <= a <= 2100)%Z -> list_in p PROVINCIAS_PANAMA = true ->
   exists g', agregar_registro g e c a p = (g', (true, "Registro agregado correctamente")) /\
   filas (df g') = (filas (df g) ++ [mkRegistro e c a p])%list /\
   cambios_sin_guardar g' = true /\ ruta_archivo g' = ruta_archivo g).
Proof.
  unfold agregar_registro, validar. rewrite validar_blanco.
  split.
  { repeat constructor; simpl; intuition discriminate. }
  split.
  { intros H. rewrite H. reflexivity. }
  split.
  { intros Hs Hl. apply String.eqb_neq in Hs. rewrite Hs, Hl. reflexivity. }
  split.
  { intros Hs Hl Hc. apply String.eqb_neq in Hs. rewrite Hs, Hl.
    apply Z.ltb_lt in Hc. rewrite Hc. reflexivity. }
  split.
  { intros Hs Hl Hc Ha. apply String.eqb_neq in Hs. rewrite Hs, Hl.
    rewrite (proj2 (Z.ltb_ge c 0) Hc).
    assert (E : ((1900 <=? a) && (a <=? 2100))%Z = false).
    { apply andb_false_iff. destruct (Z.leb_spec 1900 a);
        [right; apply Z.leb_gt; lia | left; reflexivity]. }
    rewrite E. reflexivity. }
  split.
  { intros Hs Hl Hc Ha Hp. apply String.eqb_neq in Hs. rewrite Hs, Hl.
    rewrite (proj2 (Z.ltb_ge c 0) Hc).
    assert (E : ((1900 <=? a) && (a <=? 2100))%Z = true).
    { apply andb_true_iff. split; apply Z.leb_le; lia. }
    rewrite E, Hp. reflexivity. }
  { intros Hs Hl Hc Ha Hp. apply String.eqb_neq in Hs. rewrite Hs, Hl.
    rewrite (proj2 (Z.ltb_ge c 0) Hc).
    assert (E : ((1900 <=? a) && (a <=? 2100))%Z = true).
    { apply andb_true_iff. split; apply Z.leb_le; lia. }
    rewrite E, Hp. cbn -[strip]. rewrite (strip_especie e Hl).
    eexists. split; [reflexivity|]. simpl.
    split; [reflexivity|]. split; reflexivity. }
Qed.

Lemma agregar_registro_orden_validacion_witness :
  exists g', agregar_registro gestor_inicial "Jaguar" 4%Z 2024%Z "Coclé"
             = (g', (true, "Registro agregado correctamente")) /\
             filas (df g') = [mkRegistro "Jaguar" 4%Z 2024%Z "Coclé"].
Proof.
  destruct (agregar_registro_orden_validacion gestor_inicial "Jaguar" 4 2024 "Coclé")
    as (_ & _ & _ & _ & _ & _ & H).
  destruct H as (g' & H1 & H2 & _).
  - discriminate.
  - reflexivity.
  - lia.
  - lia.
  - reflexivity.
  - exists g'. split; [exact H1 | exact H2].
Defined.

Lemma dos_años_por_año (datos : list Registro) :
  (exists r1 r2, In r1 datos /\ In r2 datos /\ Año r1 <> Año r2) ->
  (1 < length (por_año datos))%nat.
Proof.
  intros (r1 & r2 & Hr1 & Hr2 & Hne).
  rewrite <- (length_map fst).
  apply (dos_distintos _ (Año r1) (Año r2)); [| |exact Hne];
    apply por_año_claves; eauto.
Qed.

Lemma un_año_por_año (datos : list Registro) :
  datos <> [] -> (forall r1 r2, In r1 datos -> In r2 datos -> Año r1 = Año r2) ->
  (1 <? length (por_año datos))%nat = false.
Proof.
  intros Hne Hy. apply Nat.ltb_ge.
  destruct datos as [|x xs]; [congruence|].
  apply (por_año_un_año _ (Año x)). intros r Hr.
  apply Hy; [exact Hr | left; reflexivity].
Qed.

Lemma proyectar_clamp_valores (np : Numerico) (coef : Q * Q) (M : Z) (valor : Z -> Q) :
  (forall i, (1 <= i <= 3)%Z -> polyval np coef (M + i) = Some (valor i)) ->
  proyectar_clamp np coef M
  = Some (map (fun i => ((M + i)%Z, Z.max 0 (round_py (valor i)))) [1; 2; 3]%Z).
Proof.
  intros Hv. unfold proyectar_clamp. simpl.
  rewrite !Hv by lia. reflexivity.
Qed.

Lemma tabla_proyeccion_valores (np : Numerico) (coef : Q * Q) (M : Z) (valor : Z -> Q) :
  (forall i, (1 <= i <= 3)%Z -> polyval np coef (M + i) = Some (valor i)) ->
  Proyecto.tabla_proyeccion np coef M
  = Some (map (fun i => ((M + i)%Z, round_py (valor i))) [1; 2; 3]%Z).
Proof.
  intros Hv. unfold Proyecto.tabla_proyeccion. simpl.
  rewrite !Hv by lia. reflexivity.
Qed.

(** The values of [polyval] at the three years, read as a function. *)
Definition valores_de (np : Numerico) (coef : Q * Q) (M : Z) (i : Z) : Q :=
  match polyval np coef (M + i) with Some v => v | None => 0 end.

Lemma valores_de_spec (np : Numerico) (coef : Q * Q) (M : Z) :
  (forall i, (1 <= i <= 3)%Z -> polyval np coef (M + i) <> None) ->
  forall i, (1 <= i <= 3)%Z -> polyval np coef (M + i) = Some (valores_de np coef M i).
Proof.
  intros Hv i Hi. unfold valores_de.
  destruct (polyval np coef (M + i)) eqn:E; [reflexivity|].
  exfalso. exact (Hv i Hi E).
Qed.

(** [calcular_estadisticas] when np.polyfit returns [coef] and the three
    projected values are finite. *)
Lemma calcular_estadisticas_ajuste (np : Numerico) (g : Gestor) (e : string)
  (coef : Q * Q) (valor : Z -> Q) :
  let datos := obtener_datos_especie g e in
  let pa := por_año datos in
  (exists r1 r2, In r1 datos /\ In r2 datos /\ Año r1 <> Año r2) ->
  polyfit np pa = Some coef ->
  (forall i, (1 <= i <= 3)%Z -> polyval np coef (max_año pa + i) = Some (valor i)) ->
  calcular_estadisticas np g e
  = Listo (mkEstadisticas (int_py (media np (map Cantidad datos)))
             (suma_cantidades datos) (length datos) (clasificar (fst coef))
             (map (fun i => ((max_año pa + i)%Z, Z.max 0 (round_py (valor i)))) [1; 2; 3]%Z)
             pa (por_provincia datos)).
Proof.
  intros datos pa H2 Hf Hv.
  pose proof (dos_años_por_año datos H2) as Hlen. apply Nat.ltb_lt in Hlen. fold pa in Hlen.
  unfold calcular_estadisticas, tendencia_y_proyecciones. fold datos. fold pa.
  rewrite Hlen, Hf, (proyectar_clamp_valores np coef (max_año pa) valor Hv).
  destruct H2 as (r1 & _ & Hr1 & _). clearbody pa datos.
  destruct datos as [|x xs]; [destruct Hr1 | reflexivity].
Qed.

(** The report of src/proyecto.py when np.polyfit returns [coef] and the
    three projected values are finite. *)
Lemma generar_informe_ajuste (np : Numerico) (df : list Registro) (e : string)
  (coef : Q * Q) (valor : Z -> Q) :
  let filtrado := filter (fun r => String.eqb (Especie r) e) df in
  let pa := por_año filtrado in
  (exists r1 r2, In r1 filtrado /\ In r2 filtrado /\ Año r1 <> Año r2) ->
  polyfit np pa = Some coef ->
  (forall i, (1 <= i <= 3)%Z -> polyval np coef (max_año pa + i) = Some (valor i)) ->
  Proyecto.generar_informe np df e
  = Listo (Proyecto.conclusion (fst coef),
           map (fun i => ((max_año pa + i)%Z, round_py (valor i))) [1; 2; 3]%Z).
Proof.
  intros filtrado pa H2 Hf Hv.
  pose proof (dos_años_por_año filtrado H2) as Hlen. apply Nat.ltb_lt in Hlen. fold pa in Hlen.
  unfold Proyecto.generar_informe. fold filtrado. fold pa.
  rewrite Hlen, Hf, (tabla_proyeccion_valores np coef (max_año pa) valor Hv).
  destruct H2 as (r1 & _ & Hr1 & _). clearbody pa filtrado.
  destruct filtrado as [|x xs]; [destruct Hr1 | reflexivity].
Qed.

Lemma round_py_cerca (v : Q) (k : Z) :
  Qabs (v - inject_Z k) < 1 # 2 -> round_py v = k.
Proof.
  intros H. apply Qabs_Qlt_condition in H. destruct H as [H1 H2].
  pose proof (Qfloor_le v) as Hf1. pose proof (Qlt_floor v) as Hf2.
  unfold round_py. set (f := Qfloor v) in *. clearbody f.
  rewrite inject_Z_plus in Hf2. change (inject_Z 1) with 1 in Hf2.
  assert (Hup : (f < k + 1)%Z).
  { rewrite Zlt_Qlt, inject_Z_plus. change (inject_Z 1) with 1.
    set (F := inject_Z f) in *. set (K := inject_Z k) in *. clearbody F K. lra. }
  assert (Hlo : (k < f + 2)%Z).
  { rewrite Zlt_Qlt, inject_Z_plus. change (inject_Z 2) with 2.
    set (F := inject_Z f) in *. set (K := inject_Z k) in *. clearbody F K. lra. }
  assert (Hk : f = k \/ f = (k - 1)%Z) by lia.
  destruct Hk as [-> | ->].
  - set (K := inject_Z k) in *. clearbody K.
    destruct (Qlt_le_dec (v - K) (1 # 2)); [reflexivity|]. lra.
  - replace (inject_Z (k - 1)) with (inject_Z k - 1) in *
      by (unfold Z.sub; rewrite inject_Z_plus, inject_Z_opp; reflexivity).
    set (K := inject_Z k) in *. clearbody K.
    destruct (Qlt_le_dec (v - (K - 1)) (1 # 2)); [lra|].
    destruct (Qlt_le_dec (1 # 2) (v - (K - 1))); [lia|]. lra.
Qed.

Lemma int_py_0 (q : Q) : 0 <= q -> q < 1 -> int_py q = 0%Z.
Proof.
  destruct q as [n d]. unfold Qle, Qlt, int_py. simpl. intros H1 H2.
  apply Z.quot_small. lia.
Qed.

(** C2: when the rows of a species span at least two distinct years, the
    trend label of [calcular_estadisticas] is decided by the slope [m] that
    np.polyfit returns for the yearly sums against the year: "Aumento
    significativo" iff m > 5, "Aumento moderado" iff 0 < m <= 5,
    "Disminución significativa" iff m < -5, "Disminución moderada" iff
    -5 <= m < 0, "Estable" iff m = 0. The statement covers the runs where
    the fit returns and the three projected values are finite (otherwise the
    method raises and returns no label), with no int64 overflow in the sums. *)
Theorem calcular_estadisticas_tendencia (np : Numerico) (g : Gestor) (e : string)
  (m b : Q)
  (H2 : exists r1 r2, In r1 (obtener_datos_especie g e) /\
        In r2 (obtener_datos_especie g e) /\ Año r1 <> Año r2)
  (Hsum : (suma_abs (obtener_datos_especie g e) < 2 ^ 63)%Z)
  (Hfit : polyfit np (por_año (obtener_datos_especie g e)) = Some (m, b))
  (Hval : forall i, (1 <= i <= 3)%Z ->
          polyval np (m, b) (max_año (por_año (obtener_datos_especie g e)) + i) <> None) :
  exists s, calcular_estadisticas np g e = Listo s /\
    est_por_año s = por_año (obtener_datos_especie g e) /\
    (tendencia s = "Aumento significativo" <-> 5 < m) /\
    (tendencia s = "Aumento moderado" <-> 0 < m /\ m <= 5) /\
    (tendencia s = "Disminución significativa" <-> m < -5) /\
    (tendencia s = "Disminución moderada" <-> -5 <= m /\ m < 0) /\
    (tendencia s = "Estable" <-> m == 0).
Proof.
  rewrite (calcular_estadisticas_ajuste np g e (m, b) _ H2 Hfit
             (valores_de_spec np (m, b) _ Hval)).
  eexists. split; [reflexivity|]. split; [reflexivity|].
  apply clasificar_spec.
Qed.

Lemma calcular_estadisticas_tendencia_witness :
  exists s, calcular_estadisticas numerico_exacto gestor_cargado_tres_años "Jaguar" = Listo s /\
    (tendencia s = "Aumento significativo" <->
     5 < fst (polyfit1 (por_año (obtener_datos_especie gestor_cargado_tres_años "Jaguar")))).
Proof.
  destruct (calcular_estadisticas_tendencia numerico_exacto gestor_cargado_tres_años "Jaguar"
              (fst (polyfit1 (por_año (obtener_datos_especie gestor_cargado_tres_años "Jaguar"))))
              (snd (polyfit1 (por_año (obtener_datos_especie gestor_cargado_tres_años "Jaguar")))))
    as (s & H1 & _ & H3 & _).
  - exists (mkRegistro "Jaguar" 10 2020 "Panamá"), (mkRegistro "Jaguar" 20 2021 "Panamá").
    vm_compute. split; [left; reflexivity|]. split; [right; left; reflexivity|].
    discriminate.
  - vm_compute. reflexivity.
  - vm_compute. reflexivity.
  - intros i _. discriminate.
  - exists s. split; [exact H1 | exact H3].
Defined.

(** C3: let the rows of a species span at least two distinct years, [M] be
    the largest of them, and np.polyfit return [coef] for the yearly sums
    (no int64 overflow in them), with the float values [valor i] of
    np.polyval at M+1, M+2, M+3. Then the projections of
    [calcular_estadisticas] are those values rounded to the nearest integer
    and clamped at 0, and those of the report of src/proyecto.py are the
    same rounded values without the clamp. A non-empty subset whose rows
    share one year gets the trend "Datos insuficientes" and no projections
    in [calcular_estadisticas], and the insufficient-data conclusion with no
    projections in the report. On the rows [datos_decrecientes] (30 in 2020,
    10 in 2021), whenever numpy's values at 2022, 2023, 2024 lie within 1/2
    of the exact least-squares line, the report projects the negative counts
    -10, -30, -50. *)
Theorem proyecciones_recta_ajustada (g : Gestor) (e : string) (M : Z) :
  let datos := obtener_datos_especie g e in
  let pa := por_año datos in
  ((exists r1 r2, In r1 datos /\ In r2 datos /\ Año r1 <> Año r2) ->
   (exists r, In r datos /\ Año r = M) ->
   (forall r, In r datos -> (Año r <= M)%Z) ->
   (suma_abs datos < 2 ^ 63)%Z ->
   (forall (np : Numerico) (coef : Q * Q) (valor : Z -> Q),
      polyfit np pa = Some coef ->
      (forall i, (1 <= i <= 3)%Z -> polyval np coef (M + i) = Some (valor i)) ->
      exists s, calcular_estadisticas np g e = Listo s /\
        proyecciones s
        = map (fun i => ((M + i)%Z, Z.max 0 (round_py (valor i)))) [1; 2; 3]%Z) /\
   (forall (np : Numerico) (coef : Q * Q) (valor : Z -> Q),
      polyfit np pa = Some coef ->
      (forall i, (1 <= i <= 3)%Z -> polyval np coef (M + i) = Some (valor i)) ->
      exists conclusion, Proyecto.generar_informe np (filas (df g)) e
        = Listo (conclusion, map (fun i => ((M + i)%Z, round_py (valor i))) [1; 2; 3]%Z))) /\
  (datos <> [] -> (forall r1 r2, In r1 datos -> In r2 datos -> Año r1 = Año r2) ->
   forall np : Numerico,
   (exists s, calcular_estadisticas np g e = Listo s /\
      tendencia s = "Datos insuficientes" /\ proyecciones s = []) /\
   Proyecto.generar_informe np (filas (df g)) e
   = Listo ("No hay suficientes datos para proyectar tendencia.", [])) /\
  (forall (np : Numerico) (coef : Q * Q),
     polyfit np (por_año datos_decrecientes) = Some coef ->
     (forall i, (1 <= i <= 3)%Z -> exists v, polyval np coef (2021 + i) = Some v /\
        Qabs (v - polyval1 (polyfit1 (por_año datos_decrecientes)) (2021 + i)) < 1 # 2) ->
     exists conclusion, Proyecto.generar_informe np datos_decrecientes "Jaguar"
       = Listo (conclusion, [(2022, -10); (2023, -30); (2024, -50)]%Z)).
Proof.
  intros datos pa.
  split; [|split].
  - intros H2 HM Hle _.
    pose proof (max_año_eq datos M HM Hle) as EM. fold pa in EM.
    split.
    + intros np coef valor Hf Hv. rewrite <- EM in Hv.
      rewrite (calcular_estadisticas_ajuste np g e coef valor H2 Hf Hv).
      eexists. split; [reflexivity|]. cbn [proyecciones]. rewrite <- EM. reflexivity.
    + intros np coef valor Hf Hv. rewrite <- EM in Hv.
      rewrite (generar_informe_ajuste np (filas (df g)) e coef valor H2 Hf Hv).
      exists (Proyecto.conclusion (fst coef)). rewrite <- EM. reflexivity.
  - intros Hne Hy np.
    pose proof (un_año_por_año datos Hne Hy) as E.
    unfold calcular_estadisticas, Proyecto.generar_informe.
    change (filter _ (filas (df g))) with (obtener_datos_especie g e). fold datos.
    destruct datos as [|x xs]; [congruence|].
    unfold tendencia_y_proyecciones. rewrite E. split; [|reflexivity].
    eexists. split; [reflexivity|]. split; reflexivity.
  - intros np coef Hf Hv.
    assert (Hv' : forall i, (1 <= i <= 3)%Z ->
              polyval np coef (max_año (por_año datos_decrecientes) + i)
              = Some (valores_de np coef 2021 i)).
    { apply valores_de_spec. intros i Hi. destruct (Hv i Hi) as (v & E & _). congruence. }
    rewrite (generar_informe_ajuste np datos_decrecientes "Jaguar" coef
               (valores_de np coef 2021) ltac:(exists (r0 "Jaguar" 30 2020), (r0 "Jaguar" 10 2021);
                                              simpl; intuition discriminate) Hf Hv').
    eexists. f_equal. f_equal.
    assert (R : forall i k, (1 <= i <= 3)%Z ->
                polyval1 (polyfit1 (por_año datos_decrecientes)) (2021 + i) == inject_Z k ->
                round_py (valores_de np coef 2021 i) = k).
    { intros i k Hi Ek. destruct (Hv i Hi) as (v & E & Hc).
      unfold valores_de. rewrite E. apply round_py_cerca. rewrite <- Ek. exact Hc. }
    change (max_año (por_año datos_decrecientes)) with 2021%Z. simpl map.
    rewrite (R 1%Z (-10)%Z), (R 2%Z (-30)%Z), (R 3%Z (-50)%Z);
      try reflexivity; try lia; vm_compute; reflexivity.
Qed.

Lemma proyecciones_recta_ajustada_witness :
  (exists s, calcular_estadisticas numerico_exacto gestor_cargado_tres_años "Jaguar" = Listo s /\
     proyecciones s
     = map (fun i => ((2022 + i)%Z, Z.max 0 (round_py (polyval1
             (polyfit1 (por_año (obtener_datos_especie gestor_cargado_tres_años "Jaguar")))
             (2022 + i))))) [1; 2; 3]%Z) /\
  (exists s, calcular_estadisticas numerico_exacto gestor_0_0_2 "Jaguar" = Listo s /\
     tendencia s = "Datos insuficientes") /\
  (exists conclusion, Proyecto.generar_informe numerico_exacto datos_decrecientes "Jaguar"
     = Listo (conclusion, [(2022, -10); (2023, -30); (2024, -50)]%Z)).
Proof.
  destruct (proyecciones_recta_ajustada gestor_cargado_tres_años "Jaguar" 2022)
    as [H _].
  destruct (proyecciones_recta_ajustada gestor_0_0_2 "Jaguar" 2020)
    as (_ & Hu & Hd).
  split; [|split].
  - destruct H as [H _].
    + exists (mkRegistro "Jaguar" 10 2020 "Panamá"), (mkRegistro "Jaguar" 20 2021 "Panamá").
      vm_compute. split; [left; reflexivity|]. split; [right; left; reflexivity|].
      discriminate.
    + exists (mkRegistro "Jaguar" 30 2022 "Panamá"). vm_compute.
      split; [right; right; left; reflexivity | reflexivity].
    + intros r Hr. vm_compute in Hr.
      destruct Hr as [<-|[<-|[<-|[]]]]; vm_compute; discriminate.
    + vm_compute. reflexivity.
    + apply (H numerico_exacto _ _ eq_refl). intros i _. reflexivity.
  - destruct Hu with (np := numerico_exacto) as [(s & H1 & H2 & _) _].
    + vm_compute. discriminate.
    + intros r1 r2 H1 H2. vm_compute in H1, H2.
      destruct H1 as [<-|[<-|[<-|[]]]]; destruct H2 as [<-|[<-|[<-|[]]]]; reflexivity.
    + exists s. split; [exact H1 | exact H2].
  - apply (Hd numerico_exacto _ eq_refl).
    intros i _. eexists. split; [reflexivity|].
    apply Qabs_Qlt_condition. set (w := polyval1 _ _). clearbody w. split; lra.
Defined.

Lemma posicion_ausente (x : string) (l : list string) :
  ~ In x l -> posicion x l = None.
Proof.
  induction l as [|y l IH]; simpl; intros Hn; [reflexivity|].
  destruct (String.eqb_spec x y) as [E|E]; [subst; exfalso; apply Hn; left; reflexivity|].
  rewrite IH; [reflexivity|]. intros Hx. apply Hn. right. exact Hx.
Qed.

(** C4 (the code's behaviour): loading a sheet without a "Provincia" column
    (whose "Cantidad" and "Año" cells are integers within [2 ^ 53] in
    absolute value or empty, so that the numeric conversion cannot raise)
    succeeds, but the backfilled "" is then rewritten by
    [corregir_provincia]: the empty string is a substring of every province
    name, so every loaded row gets "Bocas del Toro", not "". *)
Theorem cargar_excel_sin_provincia (g : Gestor) (ruta : string) (h : Hoja)
  (H : ~ In "Provincia" (hoja_columnas h)) (Hn : hoja_numerica h) :
  exists g', cargar_excel g ruta (inr h)
             = (g', (true, "Archivo cargado: " ++
                           str_Z (Z.of_nat (length (hoja_filas h))) ++ " registros")) /\
    length (filas (df g')) = length (hoja_filas h) /\
    forall r, In r (filas (df g')) -> Provincia r = "Bocas del Toro".
Proof.
  eexists. simpl. split; [rewrite length_map; reflexivity|].
  split; [apply length_map|].
  intros r Hr. apply in_map_iff in Hr as [fila [<- _]].
  unfold normalizar_fila, celda_col. simpl.
  rewrite (posicion_ausente _ _ H). reflexivity.
Qed.

Lemma cargar_excel_sin_provincia_witness :
  filas (df (fst (cargar_excel gestor_inicial "datos.xlsx" (inr hoja_sin_provincia))))
  = [mkRegistro "Jaguar" 5 2020 "Bocas del Toro"] /\
  exists g', cargar_excel gestor_inicial "datos.xlsx" (inr hoja_sin_provincia)
             = (g', (true, "Archivo cargado: 1 registros")) /\
    forall r, In r (filas (df g')) -> Provincia r = "Bocas del Toro".
Proof.
  split; [vm_compute; reflexivity|].
  destruct (cargar_excel_sin_provincia gestor_inicial "datos.xlsx" hoja_sin_provincia)
    as (g' & H1 & _ & H3).
  - simpl. intros [H|[H|[H|[]]]]; discriminate H.
  - intros fila Hf. simpl in Hf. destruct Hf as [<-|[]]. simpl. lia.
  - exists g'. split; [exact H1 | exact H3].
Defined.

Lemma buscar_parcial_primero (t q : string) (pre post : list string) :
  forallb (fun q' => negb (coincide t q')) pre = true -> coincide t q = true ->
  buscar_parcial t (pre ++ q :: post) = Some q.
Proof.
  induction pre as [|q' pre IH]; simpl; intros Hpre Hq.
  - rewrite Hq. reflexivity.
  - apply andb_true_iff in Hpre as [H1 H2].
    apply negb_true_iff in H1. rewrite H1. apply IH; assumption.
Qed.

Lemma buscar_parcial_ninguno (t : string) (l : list string) :
  forallb (fun q => negb (coincide t q)) l = true -> buscar_parcial t l = None.
Proof.
  induction l as [|q l IH]; simpl; intros H; [reflexivity|].
  apply andb_true_iff in H as [H1 H2].
  apply negb_true_iff in H1. rewrite H1. apply IH. exact H2.
Qed.

(** C5 (counterexample): a province name with surrounding blanks is returned
    trimmed, not as given. *)
Lemma corregir_provincia_recorta :
  corregir_provincia " Coclé" = "Coclé" /\ " Coclé" <> "Coclé" /\
  list_in (strip " Coclé") PROVINCIAS_PANAMA = true.
Proof. split; [reflexivity|]. split; [discriminate | reflexivity]. Qed.

(** C5 (amended): for a province string [p] that is not blank, with [t] its
    [strip]ped form, [corregir_provincia p] is [t] when [t] is one of the ten
    names; otherwise the first name [q] of the list (in list order) such that
    [t.lower()] is a substring of [q.lower()] or [q.lower()] a substring of
    [t.lower()]; and [t] when no name matches. *)
Theorem corregir_provincia_spec (p : string) (H : strip p <> "") :
  let t := strip p in
  (list_in t PROVINCIAS_PANAMA = true -> corregir_provincia p = t) /\
  (forall pre q post,
     list_in t PROVINCIAS_PANAMA = false ->
     PROVINCIAS_PANAMA = (pre ++ q :: post)%list ->
     forallb (fun q' => negb (coincide t q')) pre = true ->
     coincide t q = true ->
     corregir_provincia p = q) /\
  (list_in t PROVINCIAS_PANAMA = false ->
   forallb (fun q => negb (coincide t q)) PROVINCIAS_PANAMA = true ->
   corregir_provincia p = t).
Proof.
  intros t. unfold corregir_provincia. fold t.
  split; [intros Hin; rewrite Hin; reflexivity|].
  split.
  - intros pre q post Hin Hl Hpre Hq. rewrite Hin, Hl.
    rewrite (buscar_parcial_primero t q pre post Hpre Hq). reflexivity.
  - intros Hin Hn. rewrite Hin, (buscar_parcial_ninguno t _ Hn). reflexivity.
Qed.

Lemma corregir_provincia_spec_witness :
  corregir_provincia " CHIRIQUÍ " = "Chiriquí" /\
  corregir_provincia "Atlántico" = "Atlántico".
Proof.
  destruct (corregir_provincia_spec " CHIRIQUÍ " ltac:(discriminate))
    as (_ & H2 & _).
  destruct (corregir_provincia_spec "Atlántico" ltac:(discriminate))
    as (_ & _ & H3').
  split.
  - apply (H2 ["Bocas del Toro"] "Chiriquí"
             ["Coclé"; "Colón"; "Darién"; "Herrera"; "Los Santos"; "Panamá";
              "Veraguas"; "Panamá Oeste"]); reflexivity.
  - apply H3'; reflexivity.
Defined.

Lemma list_in_iff (x : string) (l : list string) : list_in x l = true <-> In x l.
Proof.
  unfold list_in. rewrite existsb_exists. split.
  - intros [y [Hy E]]. apply String.eqb_eq in E. subst. exact Hy.
  - intros Hx. exists x. split; [exact Hx | apply String.eqb_refl].
Qed.

Lemma str_leb_total (a b : string) : str_leb a b = false -> str_leb b a = true.
Proof.
  revert b. induction a as [|x a IH]; intros [|y b]; simpl; try discriminate; auto.
  destruct (N.ltb_spec (byte_of x) (byte_of y)); [discriminate|].
  destruct (N.eqb_spec (byte_of x) (byte_of y)) as [E|E].
  - rewrite E, N.ltb_irrefl, N.eqb_refl. apply IH.
  - intros _. assert (Hl : (byte_of y < byte_of x)%N) by lia.
    apply N.ltb_lt in Hl. rewrite Hl. reflexivity.
Qed.

Lemma insertar_perm (x : string) (l : list string) : Permutation (x :: l) (insertar x l).
Proof.
  induction l as [|y l IH]; simpl; [reflexivity|].
  destruct (str_leb x y); [reflexivity|].
  transitivity (y :: x :: l); [apply perm_swap | apply perm_skip; exact IH].
Qed.

Lemma insertar_sorted (x : string) (l : list string) :
  Sorted (fun a b => str_leb a b = true) l ->
  Sorted (fun a b => str_leb a b = true) (insertar x l).
Proof.
  induction 1 as [|y l Hs IH Hhd]; simpl.
  - repeat constructor.
  - destruct (str_leb x y) eqn:E.
    + constructor; [constructor; assumption | constructor; exact E].
    + constructor; [exact IH|].
      apply str_leb_total in E.
      destruct l as [|z l]; simpl; [constructor; exact E|].
      destruct (str_leb x z); constructor; [exact E|].
      inversion Hhd; assumption.
Qed.

Lemma sorted_str_spec (l : list string) :
  Sorted (fun a b => str_leb a b = true) (sorted_str l) /\ Permutation l (sorted_str l).
Proof.
  induction l as [|x l [IHs IHp]]; simpl; [split; constructor|].
  split; [apply insertar_sorted; exact IHs|].
  transitivity (x :: sorted_str l); [apply perm_skip; exact IHp | apply insertar_perm].
Qed.

Lemma unique_acc_spec (vistos l : list string) :
  NoDup (unique_acc vistos l) /\
  (forall x, In x (unique_acc vistos l) <-> In x l /\ ~ In x vistos).
Proof.
  revert vistos. induction l as [|y l IH]; intros vistos; simpl.
  - split; [constructor | intuition].
  - destruct (list_in y vistos) eqn:E.
    + apply list_in_iff in E. destruct (IH vistos) as [Hn Hi]. split; [exact Hn|].
      intros x. rewrite Hi. split; [intuition|].
      intros [[<-|Hx] Hv]; [contradiction | auto].
    + destruct (IH (y :: vistos)) as [Hn Hi]. split.
      * constructor; [|exact Hn]. rewrite Hi. intros [_ Hv]. apply Hv. left. reflexivity.
      * intros x. simpl. rewrite Hi. simpl.
        assert (~ In y vistos) by (intros Hy; apply list_in_iff in Hy; congruence).
        split.
        -- intros [<-|[Hx Hv]]; [auto | split; [right; exact Hx | tauto]].
        -- intros [[<-|Hx] Hv]; [left; reflexivity|].
           destruct (String.eqb_spec y x) as [<-|Ne]; [left; reflexivity|].
           right. split; [exact Hx|]. intros [Hyx|Hxv]; [congruence | contradiction].
Qed.

Lemma df_empty_wf (d : DataFrame) : wf d -> df_empty d = true -> filas d = [].
Proof.
  intros [Hc Hi]. unfold df_empty. rewrite Hc, Hi. unfold range_index.
  rewrite length_map, length_seq. simpl. rewrite orb_false_r.
  destruct (filas d); [reflexivity | discriminate].
Qed.

(** C8 (counterexample): loading a sheet without an "Especie" column
    backfills "" and [obtener_especies] then lists that empty name:
    [dropna] drops null entries only, not empty strings. *)
Lemma obtener_especies_incluye_vacio :
  obtener_especies (fst (cargar_excel gestor_inicial "datos.xlsx" (inr hoja_sin_especie)))
  = [""].
Proof. vm_compute. reflexivity. Qed.

(** C8 (amended): on every reachable manager, [obtener_especies] returns the
    distinct species values of the dataset (only null entries would be
    dropped; the empty string is kept), in ascending case-sensitive
    code-point order; an empty dataset gives the empty list, and the species
    ["Jaguar"; "jaguar"; "Tapir"] give ["Jaguar"; "Tapir"; "jaguar"]. *)
Theorem obtener_especies_ordenadas (g : Gestor) (Hg : alcanzable g) :
  let l := obtener_especies g in
  Sorted (fun a b => str_leb a b = true) l /\ NoDup l /\
  (forall s, In s l <-> exists r, In r (filas (df g)) /\ Especie r = s) /\
  (filas (df g) = [] -> l = []) /\
  obtener_especies (gestor_de [r0 "Jaguar" 1 2020; r0 "jaguar" 1 2020; r0 "Tapir" 1 2020])
  = ["Jaguar"; "Tapir"; "jaguar"].
Proof.
  intros l. pose proof (alcanzable_wf g Hg) as Hw.
  split; [|split; [|split; [|split; [|vm_compute; reflexivity]]]];
    subst l; unfold obtener_especies;
    destruct (df_empty (df g)) eqn:E;
    try (pose proof (df_empty_wf _ Hw E) as Hnil).
  - constructor.
  - apply sorted_str_spec.
  - constructor.
  - eapply Permutation_NoDup; [apply sorted_str_spec | apply unique_acc_spec].
  - intros s. rewrite Hnil. simpl. split; [intros [] | intros [r [[] _]]].
  - intros s.
    pose proof (proj2 (sorted_str_spec (unique (map Especie (filas (df g)))))) as Hp.
    assert (Hin : In s (sorted_str (unique (map Especie (filas (df g)))))
                  <-> In s (unique (map Especie (filas (df g))))).
    { split; apply Permutation_in; [symmetry|]; exact Hp. }
    rewrite Hin. unfold unique. rewrite (proj2 (unique_acc_spec [] _)). simpl.
    rewrite in_map_iff. split.
    + intros [[r [H1 H2]] _]. exists r. split; assumption.
    + intros [r [H1 H2]]. split; [exists r; split; assumption | intros []].
  - intros _. reflexivity.
  - intros Hf. exfalso. destruct Hw as [Hc Hi].
    unfold df_empty in E. rewrite Hi, Hf in E. discriminate.
Qed.

Lemma obtener_especies_ordenadas_witness :
  NoDup (obtener_especies gestor_tres_años) /\
  (forall s, In s (obtener_especies gestor_tres_años) <->
             exists r, In r (filas (df gestor_tres_años)) /\ Especie r = s).
Proof.
  assert (Hg : alcanzable gestor_tres_años) by (repeat constructor).
  destruct (obtener_especies_ordenadas gestor_tres_años Hg) as (_ & H2 & H3 & _).
  split; [exact H2 | exact H3].
Defined.

(** C9 (the code's behaviour): [calcular_estadisticas] reports
    [int(mean)], which truncates. On the sheet loaded into [gestor_0_0_2]
    (counts 0, 0, 2 of "Jaguar", all in 2020; mean 2/3), whenever the float
    mean computed by pandas lies within 1/6 of 2/3, it reports 0, while the
    mean rounded to the nearest integer is 1, which is what the sibling
    report of src/AppAnimales/funciones_pdf.py ([int(round(mean))])
    computes on the same rows. *)
Theorem calcular_estadisticas_promedio_trunca (n1 n2 : Numerico)
  (H1 : Qabs (media n1 [0; 0; 2]%Z - (2 # 3)) < 1 # 6)
  (H2 : Qabs (media n2 [0; 0; 2]%Z - (2 # 3)) < 1 # 6) :
  map Cantidad (obtener_datos_especie gestor_0_0_2 "Jaguar") = [0; 0; 2]%Z /\
  (exists s, calcular_estadisticas n1 gestor_0_0_2 "Jaguar" = Listo s /\
     registros s = 3%nat /\ promedio s = 0%Z) /\
  round_py (2 # 3) = 1%Z /\
  FuncionesPdf.promedio_informe n2 (filas (df gestor_0_0_2)) "Jaguar" = Some 1%Z.
Proof.
  split; [reflexivity|]. split; [|split; [reflexivity|]].
  - eexists. split; [reflexivity|]. split; [reflexivity|]. cbn [promedio].
    change (obtener_datos_especie gestor_0_0_2 "Jaguar")
      with [mkRegistro "Jaguar" 0 2020 "Panamá"; mkRegistro "Jaguar" 0 2020 "Panamá";
            mkRegistro "Jaguar" 2 2020 "Panamá"].
    cbn [map Cantidad].
    apply Qabs_Qlt_condition in H1. destruct H1 as [H1a H1b].
    set (w := media n1 [0; 0; 2]%Z) in *. clearbody w.
    apply int_py_0; lra.
  - change (FuncionesPdf.promedio_informe n2 (filas (df gestor_0_0_2)) "Jaguar")
      with (Some (round_py (media n2 [0; 0; 2]%Z))).
    f_equal. apply round_py_cerca.
    apply Qabs_Qlt_condition in H2. destruct H2 as [H2a H2b].
    apply Qabs_Qlt_condition. change (inject_Z 1) with 1.
    set (w := media n2 [0; 0; 2]%Z) in *. clearbody w.
    split; lra.
Qed.

Lemma calcular_estadisticas_promedio_trunca_witness :
  exists s, calcular_estadisticas numerico_exacto gestor_0_0_2 "Jaguar" = Listo s /\
    promedio s = 0%Z /\
    FuncionesPdf.promedio_informe numerico_exacto (filas (df gestor_0_0_2)) "Jaguar"
    = Some 1%Z.
Proof.
  destruct (calcular_estadisticas_promedio_trunca numerico_exacto numerico_exacto
              ltac:(vm_compute; reflexivity) ltac:(vm_compute; reflexivity))
    as (_ & (s & Hs & _ & Hp) & _ & Hi).
  exists s. split; [exact Hs|]. split; [exact Hp | exact Hi].
Defined.

(* ================================================================== *)
(** * Further properties of the code *)

(** ** [str.strip] is idempotent *)

Lemma lstrip_l_spec (s : string) :
  list_ascii_of_string (lstrip s) = lstrip_l (list_ascii_of_string s).
Proof.
  induction s as [|c s IH]; simpl; [reflexivity|].
  destruct (is_space c); [exact IH | reflexivity].
Qed.

Lemma strip_lista (s : string) :
  list_ascii_of_string (strip s)
  = rev (lstrip_l (rev (lstrip_l (list_ascii_of_string s)))).
Proof.
  unfold strip, rev_str.
  rewrite list_ascii_of_string_of_list_ascii, lstrip_l_spec,
          list_ascii_of_string_of_list_ascii, lstrip_l_spec.
  reflexivity.
Qed.

Lemma lstrip_l_idem (l : list ascii) : lstrip_l (lstrip_l l) = lstrip_l l.
Proof.
  induction l as [|c l IH]; simpl; [reflexivity|].
  destruct (is_space c) eqn:E; [exact IH|]. simpl. rewrite E. reflexivity.
Qed.

Lemma lstrip_l_sufijo (l : list ascii) : exists t, l = (t ++ lstrip_l l)%list.
Proof.
  induction l as [|c l [t IH]]; simpl; [exists []; reflexivity|].
  destruct (is_space c); [exists (c :: t); simpl; congruence | exists []; reflexivity].
Qed.

Lemma lstrip_l_length (l : list ascii) : (length (lstrip_l l) <= length l)%nat.
Proof.
  induction l as [|c l IH]; simpl; [lia|]. destruct (is_space c); simpl; lia.
Qed.

Lemma lstrip_l_prefijo (p q : list ascii) :
  lstrip_l (p ++ q)%list = (p ++ q)%list -> lstrip_l p = p.
Proof.
  destruct p as [|c p]; simpl; [reflexivity|].
  destruct (is_space c) eqn:E; [|reflexivity].
  intros H. exfalso. pose proof (lstrip_l_length (p ++ q)) as Hl.
  rewrite H in Hl. simpl in Hl. lia.
Qed.

Lemma strip_idem (s : string) : strip (strip s) = strip s.
Proof.
  rewrite <- (string_of_list_ascii_of_string (strip (strip s))),
          <- (string_of_list_ascii_of_string (strip s)).
  f_equal. rewrite !strip_lista.
  set (a := lstrip_l (list_ascii_of_string s)).
  set (d := lstrip_l (rev a)).
  assert (Ha : lstrip_l a = a) by apply lstrip_l_idem.
  destruct (lstrip_l_sufijo (rev a)) as [t Ht]. fold d in Ht.
  assert (Hd : lstrip_l (rev d) = rev d).
  { apply (lstrip_l_prefijo _ (rev t)).
    rewrite <- rev_app_distr, <- Ht, rev_involutive. exact Ha. }
  rewrite list_ascii_of_string_of_list_ascii, Hd, rev_involutive. unfold d at 1. rewrite lstrip_l_idem. reflexivity.
Qed.

(** ** Province correction and the load normalisation *)

Lemma strip_provincias (p : string) : In p PROVINCIAS_PANAMA -> strip p = p.
Proof.
  simpl. intros H.
  repeat (destruct H as [<-|H]; [reflexivity|]). destruct H.
Qed.

Lemma buscar_parcial_in (t q : string) (l : list string) :
  buscar_parcial t l = Some q -> In q l.
Proof.
  induction l as [|p l IH]; simpl; [discriminate|].
  destruct (coincide t p); [intros H; injection H as <-; left; reflexivity|].
  intros H. right. exact (IH H).
Qed.

Lemma corregir_provincia_casos (p : string) :
  In (corregir_provincia p) PROVINCIAS_PANAMA \/
  (corregir_provincia p = strip p /\ list_in (strip p) PROVINCIAS_PANAMA = false /\
   buscar_parcial (strip p) PROVINCIAS_PANAMA = None).
Proof.
  unfold corregir_provincia.
  destruct (list_in (strip p) PROVINCIAS_PANAMA) eqn:E.
  - left. apply list_in_iff. exact E.
  - destruct (buscar_parcial (strip p) PROVINCIAS_PANAMA) as [q|] eqn:B.
    + left. exact (buscar_parcial_in _ _ _ B).
    + right. auto.
Qed.

Lemma corregir_provincia_lista (q : string) :
  In q PROVINCIAS_PANAMA -> corregir_provincia q = q.
Proof.
  intros H. unfold corregir_provincia. rewrite (strip_provincias q H).
  rewrite (proj2 (list_in_iff q PROVINCIAS_PANAMA) H). reflexivity.
Qed.

Lemma corregir_provincia_idem (p : string) :
  corregir_provincia (corregir_provincia p) = corregir_provincia p.
Proof.
  destruct (corregir_provincia_casos p) as [H|(E & L & B)].
  - apply corregir_provincia_lista. exact H.
  - rewrite E. unfold corregir_provincia at 1. cbv zeta.
    rewrite strip_idem, L, B. reflexivity.
Qed.

Lemma normalizar_fila_normal (cols : list string) (r : list celda) :
  fila_normal (normalizar_fila cols r).
Proof.
  split; simpl; [apply strip_idem | apply corregir_provincia_idem].
Qed.

(** Extra: [corregir_provincia] is idempotent, and what it returns is one
    of the ten province names or the trimmed input itself. *)
Theorem corregir_provincia_idempotente (p : string) :
  corregir_provincia (corregir_provincia p) = corregir_provincia p /\
  (In (corregir_provincia p) PROVINCIAS_PANAMA \/ corregir_provincia p = strip p).
Proof.
  split; [apply corregir_provincia_idem|].
  destruct (corregir_provincia_casos p) as [H|(E & _ & _)]; [left | right]; assumption.
Qed.

(** Extra: [cargar_excel] either fails, returning "Error al cargar: " and
    the error text with the manager unchanged, or, on a sheet whose
    "Cantidad" and "Año" cells are integers within [2 ^ 53] in absolute
    value or empty, replaces the whole dataset by the sheet's rows (one row
    per sheet row, four columns, default index), remembers the path, clears
    the unsaved-changes flag and reports the row count; every loaded row has
    a trimmed species and a province that [corregir_provincia] leaves
    unchanged. *)
Theorem cargar_excel_resultado (g : Gestor) (ruta : string) :
  (forall err, cargar_excel g ruta (inl err) = (g, (false, "Error al cargar: " ++ err))) /\
  (forall h, hoja_numerica h ->
      let g' := fst (cargar_excel g ruta (inr h)) in
      snd (cargar_excel g ruta (inr h))
        = (true, "Archivo cargado: " ++ str_Z (Z.of_nat (length (hoja_filas h)))
                 ++ " registros") /\
      ruta_archivo g' = Some ruta /\ cambios_sin_guardar g' = false /\
      length (filas (df g')) = length (hoja_filas h) /\ wf (df g') /\
      Forall fila_normal (filas (df g'))).
Proof.
  split; [reflexivity|]. intros h _.
  simpl. rewrite length_map.
  split; [reflexivity|]. split; [reflexivity|]. split; [reflexivity|].
  split; [reflexivity|]. split; [split; reflexivity|].
  apply Forall_forall. intros r Hr. apply in_map_iff in Hr as [x [<- _]].
  apply normalizar_fila_normal.
Qed.

Lemma cargar_excel_resultado_witness :
  hoja_numerica (hoja_de_valores [("Jaguar", 10, 2020, "Panamá")]%Z) /\
  ruta_archivo gestor_cargado_tres_años = Some "datos.xlsx" /\
  length (filas (df gestor_cargado_tres_años)) = 3%nat.
Proof.
  assert (Hn : forall vs, Forall (fun '(_, c, a, _) => (- 2 ^ 53 <= c <= 2 ^ 53)%Z /\
                                                     (- 2 ^ 53 <= a <= 2 ^ 53)%Z) vs ->
                          hoja_numerica (hoja_de_valores vs)).
  { intros vs Hvs fila Hf. simpl in Hf. apply in_map_iff in Hf as [[[[e c] a] p] [<- Hin]].
    rewrite Forall_forall in Hvs. exact (Hvs _ Hin). }
  assert (H3 : hoja_numerica (hoja_de_valores
                 [("Jaguar", 10, 2020, "Panamá"); ("Jaguar", 20, 2021, "Panamá");
                  ("Jaguar", 30, 2022, "Panamá")]%Z))
    by (apply Hn; repeat constructor; lia).
  destruct (cargar_excel_resultado gestor_inicial "datos.xlsx") as [_ H].
  destruct (H _ H3) as (_ & Hr & _ & Hl & _).
  split; [apply Hn; repeat constructor; lia|].
  split; [exact Hr | exact Hl].
Defined.

(** ** Deleting, adding and saving *)

Lemma filtrar_etiquetas_mayores (rs : list Registro) (t x : nat) :
  (x < t)%nat ->
  map snd (filter (fun p => negb (Z.eqb (fst p) (Z.of_nat x)))
                  (combine (map Z.of_nat (seq t (length rs))) rs)) = rs.
Proof.
  revert t. induction rs as [|r rs IH]; intros t Ht; simpl; [reflexivity|].
  destruct (Z.eqb_spec (Z.of_nat t) (Z.of_nat x)); [lia|]. simpl.
  rewrite IH by lia. reflexivity.
Qed.

Lemma filtrar_etiqueta (rs : list Registro) (s k : nat) :
  (k < length rs)%nat ->
  map snd (filter (fun p => negb (Z.eqb (fst p) (Z.of_nat (s + k))))
                  (combine (map Z.of_nat (seq s (length rs))) rs))
  = (firstn k rs ++ skipn (S k) rs)%list.
Proof.
  revert s k. induction rs as [|r rs IH]; intros s k Hk; simpl in *; [lia|].
  destruct k as [|k].
  - rewrite Nat.add_0_r, Z.eqb_refl. simpl. apply filtrar_etiquetas_mayores. lia.
  - destruct (Z.eqb_spec (Z.of_nat s) (Z.of_nat (s + S k))); [lia|]. simpl.
    replace (s + S k)%nat with (S s + k)%nat by lia.
    rewrite IH by lia. reflexivity.
Qed.

Lemma separar_posicion {A} (l : list A) (n : nat) :
  (n < length l)%nat -> exists r, l = (firstn n l ++ r :: skipn (S n) l)%list.
Proof.
  revert n. induction l as [|x l IH]; intros [|n] Hn; simpl in *; try lia.
  - exists x. reflexivity.
  - destruct (IH n) as [r Hr]; [lia|]. exists r. rewrite Hr at 1. reflexivity.
Qed.

Lemma eliminar_registro_en_rango (g : Gestor) (i : Z) :
  wf (df g) -> en_rango i (df g) = true ->
  let rows := (firstn (Z.to_nat i) (filas (df g)) ++ skipn (S (Z.to_nat i)) (filas (df g)))%list in
  eliminar_registro g i
  = (mkGestor (mkDataFrame (columns (df g)) (range_index (length rows)) rows)
              (ruta_archivo g) true,
     (true, "Registro eliminado correctamente")).
Proof.
  intros Hw Hr rows. unfold eliminar_registro. rewrite Hr. simpl.
  unfold drop_reset. rewrite (posicion_wf _ _ Hw Hr).
  destruct Hw as [_ Hi]. rewrite Hi. unfold range_index.
  unfold en_rango in Hr. apply andb_true_iff in Hr as [H1 H2].
  apply Z.leb_le in H1. apply Z.ltb_lt in H2.
  replace i with (Z.of_nat (0 + Z.to_nat i)) by lia.
  rewrite (filtrar_etiqueta (filas (df g)) 0 (Z.to_nat i)) by lia.
  reflexivity.
Qed.

(** Extra: on a frame with the four columns and the default index,
    [eliminar_registro i] with [0 <= i < len(df)] removes exactly the row at
    position [i]: the rows before it and after it stay in order, the count
    drops by one, the index is renumbered, the path is kept and the
    unsaved-changes flag is set; any other [i] gives "Índice inválido" and
    changes nothing. *)
Theorem eliminar_registro_posicion (g : Gestor) (Hw : wf (df g)) (i : Z) :
  (en_rango i (df g) = true ->
   let n := Z.to_nat i in
   let rows := (firstn n (filas (df g)) ++ skipn (S n) (filas (df g)))%list in
   eliminar_registro g i
   = (mkGestor (mkDataFrame COLUMNAS_REQUERIDAS (range_index (length rows)) rows)
               (ruta_archivo g) true,
      (true, "Registro eliminado correctamente")) /\
   (exists r, filas (df g) = (firstn n (filas (df g)) ++ r :: skipn (S n) (filas (df g)))%list) /\
   S (length rows) = length (filas (df g))) /\
  (en_rango i (df g) = false -> eliminar_registro g i = (g, (false, "Índice inválido"))).
Proof.
  split.
  - intros Hr n rows.
    assert (Hn : (n < length (filas (df g)))%nat).
    { unfold en_rango in Hr. apply andb_true_iff in Hr as [H1 H2].
      apply Z.leb_le in H1. apply Z.ltb_lt in H2. subst n. lia. }
    split; [|split].
    + rewrite (eliminar_registro_en_rango g i Hw Hr). destruct Hw as [Hc _].
      rewrite Hc. reflexivity.
    + apply separar_posicion. exact Hn.
    + subst rows. rewrite length_app, length_firstn, length_skipn. lia.
  - intros Hr. unfold eliminar_registro. rewrite Hr. reflexivity.
Qed.

Lemma eliminar_registro_posicion_witness :
  eliminar_registro gestor_tres_años 1
  = (mkGestor (mkDataFrame COLUMNAS_REQUERIDAS (range_index 2)
                 [r0 "Jaguar" 10 2020; r0 "Jaguar" 30 2022]) None true,
     (true, "Registro eliminado correctamente")).
Proof.
  assert (Hw : wf (df gestor_tres_años)) by (split; vm_compute; reflexivity).
  destruct (eliminar_registro_posicion gestor_tres_años Hw 1) as [H _].
  destruct (H eq_refl) as [E _]. rewrite E. vm_compute. reflexivity.
Defined.

Lemma agregar_registro_valido (g : Gestor) (e : string) (c a : Z) (p : string) :
  validar e c a p = None ->
  agregar_registro g e c a p
  = (mkGestor (concat_fila (df g) (mkRegistro (strip e) c a p)) (ruta_archivo g) true,
     (true, "Registro agregado correctamente")).
Proof. intros H. unfold agregar_registro. rewrite H. reflexivity. Qed.

(** Extra: after a successful [agregar_registro] on a frame with the four
    columns and the default index, the new row sits at position
    [len(df)] (the old length), and [eliminar_registro] at that position
    gives back the original frame, with the same path and the
    unsaved-changes flag set. *)
Theorem agregar_luego_eliminar (g : Gestor) (Hw : wf (df g))
  (e : string) (c a : Z) (p : string) (Hv : validar e c a p = None) :
  let g1 := fst (agregar_registro g e c a p) in
  let g2 := fst (eliminar_registro g1 (Z.of_nat (length (filas (df g))))) in
  nth_error (filas (df g1)) (length (filas (df g))) = Some (mkRegistro (strip e) c a p) /\
  df g2 = df g /\ ruta_archivo g2 = ruta_archivo g /\ cambios_sin_guardar g2 = true.
Proof.
  intros g1 g2. subst g1 g2. rewrite (agregar_registro_valido g e c a p Hv). simpl.
  set (n := length (filas (df g))).
  set (r := mkRegistro (strip e) c a p).
  split; [unfold concat_fila; simpl; subst n; rewrite nth_error_app2, Nat.sub_diag by lia;
          reflexivity|].
  set (g1 := mkGestor (concat_fila (df g) r) (ruta_archivo g) true).
  assert (Hw1 : wf (df g1)) by (apply (wf_agregar g e c a p) in Hw;
                                rewrite (agregar_registro_valido g e c a p Hv) in Hw; exact Hw).
  assert (Hr : en_rango (Z.of_nat n) (df g1) = true).
  { unfold en_rango. simpl. rewrite length_app. simpl. apply andb_true_iff. split.
    - apply Z.leb_le. lia.
    - apply Z.ltb_lt. lia. }
  rewrite (eliminar_registro_en_rango g1 _ Hw1 Hr).
  unfold g1, concat_fila. cbn [fst df filas columns ruta_archivo cambios_sin_guardar].
  rewrite Nat2Z.id. unfold n.
  rewrite firstn_app, Nat.sub_diag, firstn_all, firstn_O, app_nil_r.
  rewrite skipn_all2 by (rewrite length_app; simpl; lia). rewrite app_nil_r.
  destruct Hw as [Hc Hi]. split; [|split; reflexivity].
  destruct (df g) as [cols ind rows]; simpl in *. subst cols ind. reflexivity.
Qed.

Lemma agregar_luego_eliminar_witness :
  df (fst (eliminar_registro (fst (agregar_registro gestor_tres_años "Jaguar" 5 2023 "Colón")) 3))
  = df gestor_tres_años.
Proof.
  assert (Hw : wf (df gestor_tres_años)) by (split; vm_compute; reflexivity).
  destruct (agregar_luego_eliminar gestor_tres_años Hw "Jaguar" 5 2023 "Colón" eq_refl)
    as (_ & H & _).
  exact H.
Defined.

(** Extra: [guardar_excel] never changes the manager when it fails; when it
    succeeds, the write itself succeeded, the dataset is unchanged, the
    unsaved-changes flag is cleared and the path used is remembered: the
    given path when it is a non-empty string, the remembered one otherwise.
    Without a non-empty remembered path and without a non-empty given path
    it reports "No se especificó una ruta de archivo" whatever the write
    would do. *)
Theorem guardar_excel_resultado (g : Gestor) (ruta escritura : option string) :
  let '(g', (ok, msg)) := guardar_excel g ruta escritura in
  (ok = false -> g' = g) /\
  (ok = true -> escritura = None /\ msg = "Archivo guardado exitosamente" /\
     df g' = df g /\ cambios_sin_guardar g' = false /\
     ruta_verdadera (ruta_archivo g') = true /\
     ruta_archivo g' = match ruta with
                       | Some r => if String.eqb r "" then ruta_archivo g else Some r
                       | None => ruta_archivo g
                       end) /\
  (ruta_verdadera (ruta_archivo g) = false -> ruta = None \/ ruta = Some "" ->
   ok = false /\ msg = "No se especificó una ruta de archivo").
Proof.
  unfold guardar_excel.
  destruct (match ruta with
            | Some r => if String.eqb r "" then ruta_archivo g else Some r
            | None => ruta_archivo g end) as [rf|] eqn:Erf.
  - destruct (String.eqb rf "") eqn:Ee.
    + split; [reflexivity|]. split; [discriminate|]. auto.
    + destruct escritura as [err|].
      * split; [reflexivity|]. split; [discriminate|].
        intros Hv [->| ->]; simpl in Erf; rewrite Erf in Hv; simpl in Hv;
          rewrite Ee in Hv; discriminate.
      * split; [discriminate|]. split.
        -- intros _. simpl. rewrite Ee. auto 7.
        -- intros Hv [->| ->]; simpl in Erf; rewrite Erf in Hv; simpl in Hv;
             rewrite Ee in Hv; discriminate.
  - split; [reflexivity|]. split; [discriminate|]. auto.
Qed.

Lemma df_empty_filas (d : DataFrame) : wf d -> filas d = [] -> df_empty d = true.
Proof. intros [_ Hi] Hf. unfold df_empty. rewrite Hi, Hf. reflexivity. Qed.

(** Extra: when the application window closes, either no change was left
    unsaved, or the user answered "No", or the write failed (the failure of
    [guardar_excel] is ignored and the window closes anyway, so the unsaved
    changes are lost); when it stays open nothing has changed. *)
Theorem on_closing_cambios (g : Gestor) (respuesta : Respuesta) (dialogo : string)
  (escritura : option string) :
  let '(g', cerrada) := on_closing g respuesta dialogo escritura in
  (cerrada = false -> g' = g) /\
  (cerrada = true -> cambios_sin_guardar g' = true -> respuesta = No \/ escritura <> None) /\
  (cambios_sin_guardar g = true -> respuesta = Si -> ruta_verdadera (ruta_archivo g) = true ->
   escritura <> None -> cerrada = true /\ g' = g).
Proof.
  unfold on_closing.
  destruct (cambios_sin_guardar g) eqn:Ec; [|split; [discriminate|]; split;
    [intros _ H; rewrite Ec in H; discriminate | discriminate]].
  destruct respuesta.
  - destruct (ruta_verdadera (ruta_archivo g)) eqn:Er.
    + split; [discriminate|]. split.
      * intros _ H. right. intros ->. revert H. unfold guardar_excel.
        destruct (ruta_archivo g) as [r|]; [|discriminate].
        simpl in Er. destruct (String.eqb r ""); [discriminate|]. simpl. discriminate.
      * intros _ _ _ Hw. split; [reflexivity|]. unfold guardar_excel.
        destruct (ruta_archivo g) as [r|]; [|reflexivity].
        destruct (String.eqb r ""); [reflexivity|].
        destruct escritura; [reflexivity|]. congruence.
    + destruct (negb (String.eqb dialogo "")) eqn:Ed.
      * split; [discriminate|]. split; [|intros _ _ H; discriminate].
        intros _ H. right. intros ->. revert H. unfold guardar_excel.
        apply negb_true_iff in Ed. rewrite Ed. simpl. rewrite Ed. discriminate.
      * split; [reflexivity|]. split; [discriminate|]. intros _ _ H. discriminate.
  - split; [discriminate|]. split; [left; reflexivity|]. discriminate.
  - split; [reflexivity|]. split; discriminate.
Qed.

(** Extra: the Save action refuses a dataset with no rows (nothing is
    written, the manager is unchanged, even when the unsaved-changes flag
    is set, as after deleting the last row), while closing the window and
    answering "Yes" with a remembered path writes that empty dataset and
    clears the flag. *)
Theorem guardar_dataset_vacio (g : Gestor) (Hw : wf (df g)) (Hf : filas (df g) = [])
  (dialogo : string) (escritura : option string) :
  accion_guardar g dialogo escritura = (g, None) /\
  (cambios_sin_guardar g = true -> ruta_verdadera (ruta_archivo g) = true ->
   on_closing g Si dialogo None = (mkGestor (df g) (ruta_archivo g) false, true)).
Proof.
  split.
  - unfold accion_guardar. rewrite (df_empty_filas _ Hw Hf). reflexivity.
  - intros Hc Hr. unfold on_closing. rewrite Hc, Hr. unfold guardar_excel.
    destruct (ruta_archivo g) as [r|]; [|discriminate].
    simpl in Hr. destruct (String.eqb r ""); [discriminate|]. reflexivity.
Qed.

(** The manager after loading an empty sheet from "datos.xlsx", adding one
    row and deleting it again. *)
Lemma guardar_dataset_vacio_witness :
  let g := fst (eliminar_registro
                  (fst (agregar_registro
                          (fst (cargar_excel gestor_inicial "datos.xlsx"
                                  (inr (mkHoja COLUMNAS_REQUERIDAS []))))
                          "Jaguar" 5 2020 "Colón")) 0) in
  cambios_sin_guardar g = true /\ accion_guardar g "" None = (g, None) /\
  on_closing g Si "" None = (mkGestor (df g) (Some "datos.xlsx") false, true).
Proof.
  intros g.
  assert (Hw : wf (df g)) by (split; vm_compute; reflexivity).
  destruct (guardar_dataset_vacio g Hw ltac:(vm_compute; reflexivity) "" None) as [H1 H2].
  split; [vm_compute; reflexivity|]. split; [exact H1|].
  rewrite (H2 ltac:(vm_compute; reflexivity) ltac:(vm_compute; reflexivity)).
  vm_compute. reflexivity.
Defined.

(** ** Group sums *)

Section Grupos.
Variable K : Type.
Variable eqb ltb : K -> K -> bool.
Hypothesis eqb_eq : forall a b, eqb a b = true -> a = b.
Hypothesis ltb_total : forall a b, ltb a b = false -> eqb a b = false -> ltb b a = true.

Lemma suma_sumar_en (k : K) (v : Z) (l : list (K * Z)) :
  suma_valores (sumar_en eqb ltb k v l) = (v + suma_valores l)%Z.
Proof.
  induction l as [|[k' v'] l IH]; simpl; [lia|].
  destruct (eqb k k'); simpl; [lia|].
  destruct (ltb k k'); simpl; [lia|]. rewrite IH. lia.
Qed.

Lemma suma_agrupar_acc (key : Registro -> K) (rs : list Registro) (acc : list (K * Z)) :
  suma_valores (fold_left (fun acc r => sumar_en eqb ltb (key r) (Cantidad r) acc) rs acc)
  = (suma_valores acc + suma_cantidades rs)%Z.
Proof.
  revert acc. induction rs as [|r rs IH]; intros acc; simpl; [lia|].
  rewrite IH, suma_sumar_en. lia.
Qed.

Lemma suma_agrupar (key : Registro -> K) (rs : list Registro) :
  suma_valores (agrupar_suma eqb ltb key rs) = suma_cantidades rs.
Proof. unfold agrupar_suma. rewrite suma_agrupar_acc. reflexivity. Qed.

Let R (a b : K) : Prop := ltb a b = true.

Lemma HdRel_sumar_en (a k : K) (v : Z) (l : list (K * Z)) :
  HdRel R a (map fst l) -> R a k -> HdRel R a (map fst (sumar_en eqb ltb k v l)).
Proof.
  intros Hl Hk. destruct l as [|[k' v'] l]; simpl; [constructor; exact Hk|].
  inversion Hl; subst.
  destruct (eqb k k'); simpl; [constructor; assumption|].
  destruct (ltb k k'); simpl; constructor; assumption.
Qed.

Lemma sorted_sumar_en (k : K) (v : Z) (l : list (K * Z)) :
  Sorted R (map fst l) -> Sorted R (map fst (sumar_en eqb ltb k v l)).
Proof.
  induction l as [|[k' v'] l IH]; simpl; intros Hs; [repeat constructor|].
  destruct (eqb k k') eqn:Ee; [simpl; exact Hs|].
  destruct (ltb k k') eqn:El; simpl.
  - constructor; [exact Hs | constructor; exact El].
  - inversion Hs; subst. constructor; [apply IH; assumption|].
    apply HdRel_sumar_en; [assumption|]. apply ltb_total; assumption.
Qed.

Lemma sorted_agrupar (key : Registro -> K) (rs : list Registro) :
  Sorted R (map fst (agrupar_suma eqb ltb key rs)).
Proof.
  unfold agrupar_suma.
  assert (G : forall acc, Sorted R (map fst acc) ->
    Sorted R (map fst (fold_left (fun acc r => sumar_en eqb ltb (key r) (Cantidad r) acc) rs acc))).
  { induction rs as [|r rs IH]; intros acc Ha; simpl; [exact Ha|].
    apply IH. apply sorted_sumar_en. exact Ha. }
  apply G. constructor.
Qed.
End Grupos.

Lemma Z_ltb_total (a b : Z) : Z.ltb a b = false -> Z.eqb a b = false -> Z.ltb b a = true.
Proof. intros H1 H2. apply Z.ltb_ge in H1. apply Z.eqb_neq in H2. apply Z.ltb_lt. lia. Qed.

Lemma str_ltb_total (a b : string) :
  str_ltb a b = false -> String.eqb a b = false -> str_ltb b a = true.
Proof.
  unfold str_ltb. intros H1 H2. rewrite H2 in H1. rewrite andb_true_r in H1.
  rewrite (str_leb_total _ _ H1). simpl. rewrite String.eqb_sym, H2. reflexivity.
Qed.

Lemma sorted_por_año (rs : list Registro) :
  Sorted (fun a b => Z.ltb a b = true) (map fst (por_año rs)).
Proof. apply (sorted_agrupar Z Z.eqb Z.ltb Z_ltb_total). Qed.

Lemma sorted_por_provincia (rs : list Registro) :
  Sorted (fun a b => str_ltb a b = true) (map fst (por_provincia rs)).
Proof. apply (sorted_agrupar string String.eqb str_ltb str_ltb_total). Qed.

Lemma Sorted_mono {A} (R1 R2 : A -> A -> Prop) (l : list A) :
  (forall a b, R1 a b -> R2 a b) -> Sorted R1 l -> Sorted R2 l.
Proof.
  intros Himp Hs. induction Hs as [|a l Hs IH Hd]; constructor; [exact IH|].
  destruct Hd; constructor. apply Himp. assumption.
Qed.

Lemma calcular_estadisticas_campos (np : Numerico) (g : Gestor) (e : string)
  (s : Estadisticas) :
  calcular_estadisticas np g e = Listo s ->
  let datos := obtener_datos_especie g e in
  datos <> [] /\ total s = suma_cantidades datos /\ registros s = length datos /\
  promedio s = int_py (media np (map Cantidad datos)) /\
  est_por_año s = por_año datos /\ est_por_provincia s = por_provincia datos.
Proof.
  intros H datos. unfold calcular_estadisticas in H. fold datos in H.
  destruct datos as [|x xs]; [discriminate|].
  destruct (tendencia_y_proyecciones np (por_año (x :: xs))) as [[t p]|]; [|discriminate].
  injection H as <-. simpl. split; [discriminate|]. auto.
Qed.

(** Extra: whenever [calcular_estadisticas] returns statistics and the
    species' counts are small enough that no int64 sum wraps around
    (absolute values summing below [2 ^ 63]), "total" is the sum of the
    species' counts, which is also the sum of the yearly sums ("por_año")
    and the sum of the per-province sums ("por_provincia"), and
    "registros" is the number of the species' rows. *)
Theorem calcular_estadisticas_totales (np : Numerico) (g : Gestor) (e : string)
  (s : Estadisticas)
  (H : calcular_estadisticas np g e = Listo s)
  (Hsum : (suma_abs (obtener_datos_especie g e) < 2 ^ 63)%Z) :
  let datos := obtener_datos_especie g e in
  total s = suma_cantidades datos /\
  total s = suma_valores (est_por_año s) /\
  total s = suma_valores (est_por_provincia s) /\
  registros s = length datos.
Proof.
  intros datos.
  destruct (calcular_estadisticas_campos np g e s H) as (_ & Ht & Hr & _ & Ha & Hpr).
  fold datos in Ht, Hr, Ha, Hpr.
  rewrite Ha, Hpr, Ht, Hr. unfold por_año, por_provincia.
  rewrite !suma_agrupar. auto.
Qed.

Lemma calcular_estadisticas_totales_witness :
  exists s, calcular_estadisticas numerico_exacto gestor_cargado_tres_años "Jaguar" = Listo s /\
    total s = 60%Z /\ total s = suma_valores (est_por_provincia s) /\ registros s = 3%nat.
Proof.
  destruct (calcular_estadisticas numerico_exacto gestor_cargado_tres_años "Jaguar")
    as [| |s] eqn:E; [vm_compute in E; discriminate | vm_compute in E; discriminate|].
  destruct (calcular_estadisticas_totales numerico_exacto gestor_cargado_tres_años "Jaguar" s E
              ltac:(vm_compute; reflexivity)) as (H1 & _ & H3 & H4).
  exists s. split; [reflexivity|]. split; [|split; [exact H3|]].
  - rewrite H1. reflexivity.
  - rewrite H4. reflexivity.
Defined.

(** Extra: whenever [calcular_estadisticas] returns statistics, the years
    of "por_año" are in strictly increasing order (so each year appears
    once) and the provinces of "por_provincia" are in strictly increasing
    code-point order. *)
Theorem calcular_estadisticas_claves_ordenadas (np : Numerico) (g : Gestor) (e : string)
  (s : Estadisticas)
  (H : calcular_estadisticas np g e = Listo s) :
  Sorted Z.lt (map fst (est_por_año s)) /\
  Sorted (fun a b => str_ltb a b = true) (map fst (est_por_provincia s)).
Proof.
  destruct (calcular_estadisticas_campos np g e s H) as (_ & _ & _ & _ & Ha & Hpr).
  rewrite Ha, Hpr. split; [|apply sorted_por_provincia].
  apply (Sorted_mono (fun a b => Z.ltb a b = true)); [|apply sorted_por_año].
  intros a b Hab. apply Z.ltb_lt. exact Hab.
Qed.

Lemma calcular_estadisticas_claves_ordenadas_witness :
  Sorted Z.lt [2020; 2021; 2022]%Z /\
  exists s, calcular_estadisticas numerico_exacto gestor_cargado_tres_años "Jaguar" = Listo s /\
    map fst (est_por_año s) = [2020; 2021; 2022]%Z.
Proof.
  destruct (calcular_estadisticas numerico_exacto gestor_cargado_tres_años "Jaguar")
    as [| |s] eqn:E; [vm_compute in E; discriminate | vm_compute in E; discriminate|].
  destruct (calcular_estadisticas_claves_ordenadas numerico_exacto gestor_cargado_tres_años
              "Jaguar" s E) as [H _].
  assert (Hk : map fst (est_por_año s) = [2020; 2021; 2022]%Z).
  { vm_compute in E. injection E as <-. reflexivity. }
  rewrite Hk in H. split; [exact H|]. exists s. split; [reflexivity | exact Hk].
Defined.

(** ** The two report variants *)

(** Extra: let a species' rows span at least two distinct years (no int64
    overflow in their sums), and let the np.polyfit calls of
    [calcular_estadisticas] and of the report of src/proyecto.py return the
    same coefficients and np.polyval the same finite values at the three
    projected years (both receive the same arrays). Then the two agree: the
    projections of [calcular_estadisticas] are those of the report, same
    years, each clamped at 0, and the report concludes an increase exactly
    when the trend label is one of the two "Aumento" labels, a decrease
    exactly when it is one of the two "Disminución" labels, and stability
    exactly when it is "Estable". *)
Theorem informe_coincide_estadisticas (n1 n2 : Numerico) (g : Gestor) (e : string)
  (coef : Q * Q) (valor : Z -> Q)
  (H2 : exists r1 r2, In r1 (obtener_datos_especie g e) /\
        In r2 (obtener_datos_especie g e) /\ Año r1 <> Año r2)
  (Hsum : (suma_abs (obtener_datos_especie g e) < 2 ^ 63)%Z)
  (Hf1 : polyfit n1 (por_año (obtener_datos_especie g e)) = Some coef)
  (Hf2 : polyfit n2 (por_año (obtener_datos_especie g e)) = Some coef)
  (Hv1 : forall i, (1 <= i <= 3)%Z ->
         polyval n1 coef (max_año (por_año (obtener_datos_especie g e)) + i) = Some (valor i))
  (Hv2 : forall i, (1 <= i <= 3)%Z ->
         polyval n2 coef (max_año (por_año (obtener_datos_especie g e)) + i) = Some (valor i)) :
  exists s conclusion proy,
    calcular_estadisticas n1 g e = Listo s /\
    Proyecto.generar_informe n2 (filas (df g)) e = Listo (conclusion, proy) /\
    proyecciones s = map (fun p => (fst p, Z.max 0 (snd p))) proy /\
    (conclusion = "La población tiende a aumentar." <->
       tendencia s = "Aumento significativo" \/ tendencia s = "Aumento moderado") /\
    (conclusion = "La población tiende a disminuir." <->
       tendencia s = "Disminución significativa" \/ tendencia s = "Disminución moderada") /\
    (conclusion = "La población se mantiene estable." <-> tendencia s = "Estable").
Proof.
  rewrite (calcular_estadisticas_ajuste n1 g e coef valor H2 Hf1 Hv1).
  rewrite (generar_informe_ajuste n2 (filas (df g)) e coef valor H2 Hf2 Hv2).
  set (m := fst coef). unfold Proyecto.conclusion.
  pose proof (clasificar_spec m) as (C1 & C2 & C3 & C4 & C5).
  do 3 eexists. split; [reflexivity|]. split; [reflexivity|]. cbn [tendencia proyecciones].
  split; [simpl; reflexivity|].
  destruct (Qlt_le_dec 0 m) as [Hp|Hp]; [|destruct (Qlt_le_dec m 0) as [Hq|Hq]].
  - split; [|split; split].
    + split; [intros _ | reflexivity].
      destruct (Qlt_le_dec 5 m); [left; apply C1 | right; apply C2; split]; lra.
    + discriminate.
    + intros [H|H]; [apply C3 in H | apply C4 in H]; lra.
    + discriminate.
    + intros H. apply C5 in H. lra.
  - split; [|split; split].
    + split; [discriminate|]. intros [H|H]; [apply C1 in H | apply C2 in H]; lra.
    + intros _. destruct (Qlt_le_dec m (-5)); [left; apply C3 | right; apply C4; split]; lra.
    + reflexivity.
    + discriminate.
    + intros H. apply C5 in H. lra.
  - split; [|split; split].
    + split; [discriminate|]. intros [H|H]; [apply C1 in H | apply C2 in H]; lra.
    + discriminate.
    + intros [H|H]; [apply C3 in H | apply C4 in H]; lra.
    + intros _. apply C5. lra.
    + reflexivity.
Qed.

Lemma informe_coincide_estadisticas_witness :
  exists s, calcular_estadisticas numerico_exacto gestor_cargado_tres_años "Jaguar" = Listo s /\
    tendencia s = "Aumento significativo".
Proof.
  set (pa := por_año (obtener_datos_especie gestor_cargado_tres_años "Jaguar")).
  destruct (informe_coincide_estadisticas numerico_exacto numerico_exacto
              gestor_cargado_tres_años "Jaguar" (polyfit1 pa)
              (fun i => polyval1 (polyfit1 pa) (max_año pa + i)))
    as (s & c & p & H1 & H2 & _ & _ & _ & _).
  - exists (mkRegistro "Jaguar" 10 2020 "Panamá"), (mkRegistro "Jaguar" 20 2021 "Panamá").
    vm_compute. split; [left; reflexivity|]. split; [right; left; reflexivity|].
    discriminate.
  - vm_compute. reflexivity.
  - reflexivity.
  - reflexivity.
  - intros i _. reflexivity.
  - intros i _. reflexivity.
  - exists s. split; [exact H1|].
    vm_compute in H1. injection H1 as <-. reflexivity.
Defined.

(** ** The module-level variant (src/AppAnimales/utils.py) *)

(** Extra: [actualizar_species_list] returns the distinct text forms of the
    non-null values of the species column (an integer value appears as its
    decimal text), in ascending code-point order; an empty frame gives the
    empty list. *)
Theorem actualizar_species_list_spec (especies : list celda) :
  let l := AppAnimales.actualizar_species_list especies in
  Sorted (fun a b => str_leb a b = true) l /\ NoDup l /\
  (forall s, In s l <-> exists c, In c especies /\ c <> CNaN /\ astype_str c = s) /\
  (especies = [] -> l = []).
Proof.
  intros l. subst l. unfold AppAnimales.actualizar_species_list.
  destruct especies as [|c0 cs] eqn:E.
  - split; [constructor|]. split; [constructor|]. split; [|reflexivity].
    intros s. simpl. split; [intros [] | intros [c [[] _]]].
  - rewrite <- E.
    set (vals := map astype_str (filter (fun c => match c with CNaN => false | _ => true end)
                                        especies)).
    destruct (sorted_str_spec (unique vals)) as [Hs Hp].
    destruct (unique_acc_spec [] vals) as [Hn Hi].
    split; [exact Hs|]. split; [eapply Permutation_NoDup; [exact Hp | exact Hn]|].
    split; [|intros H; rewrite H in E; discriminate].
    intros s. split.
    + intros Hin. apply (Permutation_in _ (Permutation_sym Hp)) in Hin.
      apply Hi in Hin as [Hin _]. apply in_map_iff in Hin as [c [Hc Hin]].
      apply filter_In in Hin as [Hin Hnn]. exists c. split; [exact Hin|]. split; [|exact Hc].
      intros ->. discriminate.
    + intros [c [Hin [Hnn Hc]]]. apply (Permutation_in _ Hp). apply Hi.
      split; [|intros []]. apply in_map_iff. exists c. split; [exact Hc|].
      apply filter_In. split; [exact Hin|]. destruct c; [reflexivity | reflexivity | congruence].
Qed.

Lemma celda_eq_eq (a b : celda) : AppAnimales.celda_eq a b = true -> a = b.
Proof.
  destruct a, b; simpl; try discriminate.
  - intros H. apply Z.eqb_eq in H. congruence.
  - intros H. apply String.eqb_eq in H. congruence.
Qed.

Lemma fila_eq_eq (f r : AppAnimales.Fila) : AppAnimales.fila_eq f r = true -> r = f.
Proof.
  unfold AppAnimales.fila_eq. intros H.
  apply andb_true_iff in H as [H H4]. apply andb_true_iff in H as [H H3].
  apply andb_true_iff in H as [H1 H2].
  destruct f, r; simpl in *.
  apply celda_eq_eq in H1, H2, H3, H4. congruence.
Qed.

Lemma primer_indice_some {A} (p : A -> bool) (l : list A) (j : nat) :
  AppAnimales.primer_indice p l = Some j ->
  exists x, nth_error l j = Some x /\ p x = true.
Proof.
  revert j. induction l as [|y l IH]; intros j; simpl; [discriminate|].
  destruct (p y) eqn:E; [intros H; injection H as <-; exists y; auto|].
  destruct (AppAnimales.primer_indice p l) as [k|] eqn:Ek; simpl; [|discriminate].
  intros H. injection H as <-. simpl. apply IH. reflexivity.
Qed.

Lemma primer_indice_cota {A} (p : A -> bool) (l : list A) (i : nat) (x : A) :
  nth_error l i = Some x -> p x = true ->
  exists j, AppAnimales.primer_indice p l = Some j /\ (j <= i)%nat.
Proof.
  revert i. induction l as [|y l IH]; intros i Hx Hp; [destruct i; discriminate|].
  simpl. destruct (p y) eqn:Ey; [exists 0%nat; split; [reflexivity | lia]|].
  destruct i as [|i]; simpl in Hx; [injection Hx as ->; congruence|].
  destruct (IH i Hx Hp) as [j [Hj Hle]]. rewrite Hj. exists (S j). split; [reflexivity | lia].
Qed.

Lemma quitar_perm {A} (l : list A) (j : nat) (x : A) :
  nth_error l j = Some x -> Permutation l (x :: AppAnimales.quitar j l).
Proof.
  revert j. induction l as [|y l IH]; intros [|j] H; simpl in *; try discriminate.
  - injection H as ->. reflexivity.
  - transitivity (y :: x :: AppAnimales.quitar j l); [apply perm_skip; apply IH; exact H|].
    apply perm_swap.
Qed.

Lemma set_nth_perm {A} (l : list A) (j : nat) (x y : A) :
  nth_error l j = Some x -> Permutation (set_nth j y l) (y :: AppAnimales.quitar j l).
Proof.
  revert j. induction l as [|z l IH]; intros [|j] H; simpl in *; try discriminate.
  - reflexivity.
  - transitivity (z :: y :: AppAnimales.quitar j l); [apply perm_skip; apply IH; exact H|].
    apply perm_swap.
Qed.

Lemma quitar_length {A} (l : list A) (j : nat) :
  (j < length l)%nat -> S (length (AppAnimales.quitar j l)) = length l.
Proof.
  revert j. induction l as [|y l IH]; intros [|j] H; simpl in *; try lia.
  rewrite IH by lia. reflexivity.
Qed.

(** The row the dialog works on: the first row equal to the selected one,
    or the selected position when the selected row holds a cell that
    equals nothing. *)
Lemma fila_objetivo (df : list AppAnimales.Fila) (fila : AppAnimales.Fila) (idx : nat) :
  nth_error df idx = Some fila ->
  exists j, (j <= idx)%nat /\ nth_error df j = Some fila /\
    (match AppAnimales.primer_indice (AppAnimales.fila_eq fila) df with
     | Some k => k
     | None => idx
     end) = j.
Proof.
  intros Hf.
  destruct (AppAnimales.primer_indice (AppAnimales.fila_eq fila) df) as [k|] eqn:Ek.
  - destruct (primer_indice_some _ _ _ Ek) as [x [Hx Hp]].
    apply fila_eq_eq in Hp. subst x.
    assert (Hff : AppAnimales.fila_eq fila fila = true).
    { destruct (primer_indice_some _ _ _ Ek) as [x [Hx' Hp']].
      pose proof (fila_eq_eq _ _ Hp') as ->. exact Hp'. }
    destruct (primer_indice_cota _ _ _ _ Hf Hff) as [j [Hj Hle]].
    rewrite Ek in Hj. injection Hj as <-. exists k. auto.
  - exists idx. auto.
Qed.

(** Extra: deleting from the modify/delete dialog of src/AppAnimales
    removes the first row whose four values equal those of the selected
    row, which can be an earlier duplicate rather than the selected
    position; the rows left are the same collection as after removing the
    selected position, one fewer than before, but their order can differ.
    When the selected row holds a blank cell, equal to nothing, the
    selected position is removed. *)
Theorem accion_eliminar_primera_igual (df df' : list AppAnimales.Fila)
  (idx : nat) (fila : AppAnimales.Fila)
  (H : AppAnimales.abrir_dialogo df idx = (df', Some fila)) :
  exists j res,
    AppAnimales.accion_eliminar df' fila idx = inr res /\
    (j <= idx)%nat /\ nth_error df' j = Some fila /\
    (AppAnimales.primer_indice (AppAnimales.fila_eq fila) df' = Some j \/
     (AppAnimales.primer_indice (AppAnimales.fila_eq fila) df' = None /\ j = idx)) /\
    res = AppAnimales.quitar j df' /\
    Permutation res (AppAnimales.quitar idx df') /\
    S (length res) = length df'.
Proof.
  unfold AppAnimales.abrir_dialogo in H. injection H as <- Hf.
  set (d := map AppAnimales.especie_str df) in *.
  assert (Hidx : (idx < length d)%nat) by (apply nth_error_Some; congruence).
  destruct (fila_objetivo d fila idx Hf) as (j & Hle & Hj & Ej).
  unfold AppAnimales.accion_eliminar.
  exists j.
  destruct (AppAnimales.primer_indice (AppAnimales.fila_eq fila) d) as [k|] eqn:Ek;
    subst j.
  - eexists. split; [reflexivity|]. split; [exact Hle|]. split; [exact Hj|].
    split; [left; reflexivity|]. split; [reflexivity|]. split.
    + apply Permutation_cons_inv with fila.
      rewrite <- (quitar_perm _ _ _ Hj). apply quitar_perm. exact Hf.
    + apply quitar_length. apply nth_error_Some. congruence.
  - apply Nat.ltb_lt in Hidx as Hb. rewrite Hb.
    eexists. split; [reflexivity|]. split; [exact Hle|]. split; [exact Hj|].
    split; [right; auto|]. split; [reflexivity|]. split; [reflexivity|].
    apply quitar_length. exact Hidx.
Qed.

(** Two equal rows around another one; the selected row is the third. *)
Lemma accion_eliminar_primera_igual_witness :
  let a := AppAnimales.mkFila (CStr "Jaguar") (CInt 3) (CInt 2020) (CStr "Colón") in
  let b := AppAnimales.mkFila (CStr "Tapir") (CInt 1) (CInt 2021) (CStr "Darién") in
  AppAnimales.accion_eliminar [a; b; a] a 2 = inr [b; a] /\
  exists j res, AppAnimales.accion_eliminar [a; b; a] a 2 = inr res /\
    nth_error [a; b; a] j = Some a /\ Permutation res [a; b].
Proof.
  intros a b. split; [vm_compute; reflexivity|].
  destruct (accion_eliminar_primera_igual [a; b; a] [a; b; a] 2 a eq_refl)
    as (j & res & H1 & _ & H3 & _ & _ & H6 & _).
  exists j, res. split; [exact H1|]. split; [exact H3 | exact H6].
Defined.

(** Extra: saving the modify dialog of src/AppAnimales, with a count and a
    year that [int()] accepts, writes the trimmed species, the two integers
    and the trimmed province into the first row whose four values equal
    those of the selected row (possibly an earlier duplicate), or into the
    selected position when the selected row holds a blank cell; the
    resulting rows are the same collection as when the selected position
    itself is overwritten, and their number is unchanged. *)
Theorem guardar_cambios_primera_igual (df df' : list AppAnimales.Fila)
  (idx : nat) (fila : AppAnimales.Fila)
  (H : AppAnimales.abrir_dialogo df idx = (df', Some fila))
  (nombre cantidad anio prov : string) (c a : Z)
  (Hc : py_int cantidad = Some c) (Ha : py_int anio = Some a) :
  let nueva := AppAnimales.mkFila (CStr (strip nombre)) (CInt c) (CInt a) (CStr (strip prov)) in
  exists j res,
    AppAnimales.guardar_cambios df' fila idx nombre cantidad anio prov = inr res /\
    (j <= idx)%nat /\ nth_error df' j = Some fila /\
    (AppAnimales.primer_indice (AppAnimales.fila_eq fila) df' = Some j \/
     (AppAnimales.primer_indice (AppAnimales.fila_eq fila) df' = None /\ j = idx)) /\
    res = set_nth j nueva df' /\
    Permutation res (set_nth idx nueva df') /\
    length res = length df'.
Proof.
  intros nueva.
  unfold AppAnimales.abrir_dialogo in H. injection H as <- Hf.
  set (d := map AppAnimales.especie_str df) in *.
  assert (Hidx : (idx < length d)%nat) by (apply nth_error_Some; congruence).
  destruct (fila_objetivo d fila idx Hf) as (j & Hle & Hj & Ej).
  unfold AppAnimales.guardar_cambios. rewrite Hc, Ha. fold nueva.
  exists j.
  destruct (AppAnimales.primer_indice (AppAnimales.fila_eq fila) d) as [k|] eqn:Ek;
    subst j.
  - eexists. split; [reflexivity|]. split; [exact Hle|]. split; [exact Hj|].
    split; [left; reflexivity|]. split; [reflexivity|]. split.
    + rewrite (set_nth_perm _ _ _ nueva Hj), (set_nth_perm _ _ _ nueva Hf).
      apply perm_skip. apply Permutation_cons_inv with fila.
      rewrite <- (quitar_perm _ _ _ Hj). apply quitar_perm. exact Hf.
    + apply length_set_nth.
  - apply Nat.ltb_lt in Hidx as Hb. rewrite Hb.
    eexists. split; [reflexivity|]. split; [exact Hle|]. split; [exact Hj|].
    split; [right; auto|]. split; [reflexivity|]. split; [reflexivity|].
    apply length_set_nth.
Qed.

Lemma guardar_cambios_primera_igual_witness :
  let a := AppAnimales.mkFila (CStr "Jaguar") (CInt 3) (CInt 2020) (CStr "Colón") in
  let b := AppAnimales.mkFila (CStr "Tapir") (CInt 1) (CInt 2021) (CStr "Darién") in
  let n := AppAnimales.mkFila (CStr "Jaguar") (CInt 7) (CInt 2020) (CStr "Colón") in
  AppAnimales.guardar_cambios [a; b; a] a 2 " Jaguar " "7" "2020" "Colón" = inr [n; b; a] /\
  exists res,
    AppAnimales.guardar_cambios [a; b; a] a 2 " Jaguar " "7" "2020" "Colón" = inr res /\
    Permutation res [a; b; n].
Proof.
  intros a b n. split; [vm_compute; reflexivity|].
  destruct (guardar_cambios_primera_igual [a; b; a] [a; b; a] 2 a eq_refl
              " Jaguar " "7" "2020" "Colón" 7 2020 eq_refl eq_refl)
    as (j & res & H1 & _ & _ & _ & _ & H6 & _).
  exists res. split; [exact H1 | exact H6].
Defined.
Lemma digito_val_N (n : N) :
  digit_val (ascii_of_N (48 + n mod 10)) = Some (Z.of_N (n mod 10)).
Proof.
  unfold digit_val, byte_of.
  assert (Hd : (n mod 10 < 10)%N) by (apply N.mod_lt; discriminate).
  rewrite N_ascii_embedding by lia.
  replace ((48 <=? 48 + n mod 10)%N && (48 + n mod 10 <=? 57)%N) with true.
  - do 2 f_equal. rewrite N.add_comm. apply N.add_sub.
  - symmetry. apply andb_true_iff; split; apply N.leb_le;
    set (d := (n mod 10)%N) in *; clearbody d; lia.
Qed.

Lemma digitos_N_S (f : nat) (n : N) (acc : string) :
  digitos_N (S f) n acc
  = if (n <? 10)%N then String (ascii_of_N (48 + n mod 10)) acc
    else digitos_N f (n / 10) (String (ascii_of_N (48 + n mod 10)) acc).
Proof. reflexivity. Qed.

Lemma leer_digitos_N (f : nat) : forall n acc k b,
  (n < 10 ^ N.of_nat (S f))%N ->
  exists m : nat,
    leer_entero (digitos_N (S f) n acc) k b
    = leer_entero acc (k * 10 ^ Z.of_nat m + Z.of_N n) true.
Proof.
  induction f as [|f IH]; intros n acc k b Hn.
  - cbn [digitos_N]. simpl in Hn. rewrite (proj2 (N.ltb_lt n 10) Hn).
    exists 1%nat. cbn [leer_entero]. rewrite digito_val_N.
    rewrite N.mod_small by lia. f_equal. lia.
  - rewrite digitos_N_S. destruct (n <? 10)%N eqn:E.
    + apply N.ltb_lt in E. exists 1%nat. cbn [leer_entero]. rewrite digito_val_N.
      rewrite N.mod_small by lia. f_equal. lia.
    + destruct (IH (n / 10)%N (String (ascii_of_N (48 + n mod 10)) acc) k b) as [m Hm].
      { apply N.Div0.div_lt_upper_bound.
        rewrite Nat2N.inj_succ, N.pow_succ_r' in Hn. exact Hn. }
      exists (S m). rewrite Hm. cbn [leer_entero]. rewrite digito_val_N.
      f_equal.
      pose proof (N.div_mod' n 10) as Hq.
      set (q := (n / 10)%N) in *. set (r := (n mod 10)%N) in *.
      clearbody q r. rewrite Hq. rewrite N2Z.inj_add, N2Z.inj_mul, Nat2Z.inj_succ, Z.pow_succ_r by lia.
      simpl (Z.of_N 10). ring.
Qed.

Lemma size_nat_cota (n : N) : (n < 2 ^ N.of_nat (N.size_nat n))%N.
Proof.
  destruct n as [|p]; [reflexivity|]. change (N.size_nat (Npos p)) with (Pos.size_nat p).
  induction p as [p IH|p IH|].
  - change (Pos.size_nat p~1) with (S (Pos.size_nat p)).
    rewrite Nat2N.inj_succ, N.pow_succ_r'. lia.
  - change (Pos.size_nat p~0) with (S (Pos.size_nat p)).
    rewrite Nat2N.inj_succ, N.pow_succ_r'. lia.
  - reflexivity.
Qed.

Lemma digitos_cota (n : N) : (n < 10 ^ N.of_nat (S (N.size_nat n)))%N.
Proof.
  eapply N.lt_le_trans; [apply size_nat_cota|].
  transitivity (10 ^ N.of_nat (N.size_nat n))%N.
  - apply N.pow_le_mono_l. lia.
  - apply N.pow_le_mono_r; lia.
Qed.

Lemma digitos_N_forall (P : ascii -> Prop)
  (HP : forall m, P (ascii_of_N (48 + m mod 10))) :
  forall f n acc, Forall P (list_ascii_of_string acc) ->
  Forall P (list_ascii_of_string (digitos_N f n acc)).
Proof.
  induction f as [|f IH]; intros n acc H; [exact H|].
  rewrite digitos_N_S. destruct (n <? 10)%N.
  - constructor; [apply HP | exact H].
  - apply IH. constructor; [apply HP | exact H].
Qed.

Lemma digitos_N_cabeza (f : nat) : forall n acc,
  exists m r, digitos_N (S f) n acc = String (ascii_of_N (48 + m mod 10)) r.
Proof.
  induction f as [|f IH]; intros n acc; rewrite digitos_N_S.
  - destruct (n <? 10)%N; eexists _, _; reflexivity.
  - destruct (n <? 10)%N; [eexists _, _; reflexivity | apply IH].
Qed.

Lemma lstrip_l_sin_espacios (l : list ascii) :
  Forall (fun c => is_space c = false) l -> lstrip_l l = l.
Proof.
  intros H. destruct H as [|c l Hc _]; [reflexivity|]. simpl. rewrite Hc. reflexivity.
Qed.

Lemma strip_sin_espacios (s : string) :
  Forall (fun c => is_space c = false) (list_ascii_of_string s) -> strip s = s.
Proof.
  intros H.
  rewrite <- (string_of_list_ascii_of_string (strip s)).
  rewrite strip_lista, (lstrip_l_sin_espacios _ H),
    (lstrip_l_sin_espacios (rev _)) by (apply Forall_rev; exact H).
  rewrite rev_involutive. apply string_of_list_ascii_of_string.
Qed.

Lemma digito_no_espacio (m : N) : is_space (ascii_of_N (48 + m mod 10)) = false.
Proof.
  unfold is_space, byte_of.
  assert (Hd : (m mod 10 < 10)%N) by (apply N.mod_lt; discriminate).
  set (d := (m mod 10)%N) in *. clearbody d.
  rewrite N_ascii_embedding by lia.
  apply orb_false_iff; split; apply andb_false_iff; right; apply N.leb_gt; lia.
Qed.

(** [int(str(z)) == z]: Python's [int] reads back the decimal text of an
    integer. *)
Lemma py_int_str_Z (z : Z) : py_int (str_Z z) = Some z.
Proof.
  unfold str_Z. set (n := Z.abs_N z).
  set (d := digitos_N (S (N.size_nat n)) n "").
  assert (Hd : leer_entero d 0 false = Some (Z.of_N n)).
  { destruct (leer_digitos_N (N.size_nat n) n "" 0 false (digitos_cota n)) as [m Hm].
    unfold d. rewrite Hm. reflexivity. }
  assert (Hs : Forall (fun c => is_space c = false) (list_ascii_of_string d)).
  { apply digitos_N_forall; [apply digito_no_espacio | constructor]. }
  assert (Hz : Z.of_N n = Z.abs z) by apply N2Z.inj_abs_N.
  unfold py_int. destruct (z <? 0)%Z eqn:Ez.
  - rewrite strip_sin_espacios by (constructor; [reflexivity | exact Hs]).
    rewrite Hd. apply Z.ltb_lt in Ez. simpl. rewrite Hz. f_equal. lia.
  - rewrite (strip_sin_espacios _ Hs). apply Z.ltb_ge in Ez.
    destruct (digitos_N_cabeza (N.size_nat n) n "") as (m & r & Hr).
    fold d in Hr.
    assert (Hm : (m mod 10 < 10)%N) by (apply N.mod_lt; discriminate).
    transitivity (leer_entero d 0 false); [|rewrite Hd, Hz, Z.abs_eq by exact Ez; reflexivity].
    rewrite Hr. set (e := (m mod 10)%N) in *. clearbody e.
    assert (He : e = 0%N \/ e = 1%N \/ e = 2%N \/ e = 3%N \/ e = 4%N \/
                 e = 5%N \/ e = 6%N \/ e = 7%N \/ e = 8%N \/ e = 9%N) by lia.
    repeat (destruct He as [->|He]; [reflexivity|]). subst e. reflexivity.
Qed.

Lemma especie_listada (e : string) :
  list_in e ESPECIES_PANAMA = true -> strip e = e /\ String.eqb e "" = false.
Proof.
  unfold list_in, ESPECIES_PANAMA. simpl. intros H.
  repeat (apply orb_true_iff in H; destruct H as [H|H];
          [apply String.eqb_eq in H; subst; split; reflexivity|]).
  discriminate.
Qed.

Lemma set_nth_mismo {A} (i : nat) (x : A) (l : list A) :
  nth_error l i = Some x -> set_nth i x l = l.
Proof.
  revert i. induction l as [|y l IH]; intros [|i] H; simpl in *; try discriminate.
  - congruence.
  - f_equal. apply IH. exact H.
Qed.

Lemma guardar_edicion_dialogo (g : Gestor) (Hw : wf (df g)) (i : nat)
  (fila : Registro) (Hf : nth_error (filas (df g)) i = Some fila) :
  let '(e, c, a, p) := valores_dialogo fila in
  guardar_edicion g (Z.of_nat i) e c a p =
  if (Cantidad fila <? 0)%Z then (g, (false, "La cantidad debe ser positiva"))
  else if negb ((1900 <=? Año fila)%Z && (Año fila <=? 2100)%Z) then
    (g, (false, "El año debe estar entre 1900 y 2100"))
  else (mkGestor (mkDataFrame (columns (df g)) (indice (df g))
                   (set_nth i (mkRegistro e (Cantidad fila) (Año fila) p) (filas (df g))))
                 (ruta_archivo g) true,
        (true, "Registro modificado correctamente")).
Proof.
  unfold valores_dialogo.
  set (e := if list_in (Especie fila) ESPECIES_PANAMA then Especie fila
            else hd "" ESPECIES_PANAMA).
  set (p := if list_in (Provincia fila) PROVINCIAS_PANAMA then Provincia fila
            else hd "" PROVINCIAS_PANAMA).
  assert (He : list_in e ESPECIES_PANAMA = true).
  { unfold e. destruct (list_in (Especie fila) ESPECIES_PANAMA) eqn:E;
      [exact E | reflexivity]. }
  assert (Hp : list_in p PROVINCIAS_PANAMA = true).
  { unfold p. destruct (list_in (Provincia fila) PROVINCIAS_PANAMA) eqn:E;
      [exact E | reflexivity]. }
  destruct (especie_listada e He) as [Hs He0].
  assert (Hi : (i < length (filas (df g)))%nat)
    by (apply nth_error_Some; congruence).
  assert (Hr : en_rango (Z.of_nat i) (df g) = true).
  { unfold en_rango. apply andb_true_iff.
    split; [apply Z.leb_le | apply Z.ltb_lt]; lia. }
  unfold guardar_edicion. rewrite !py_int_str_Z.
  unfold modificar_registro. rewrite Hr. cbn [negb].
  unfold validar. rewrite He0, Hs, He0, He. cbn [orb negb].
  destruct (Cantidad fila <? 0)%Z; [reflexivity|].
  destruct ((1900 <=? Año fila)%Z && (Año fila <=? 2100)%Z); [|reflexivity].
  rewrite Hp. cbn [negb].
  unfold at_set_fila. rewrite (posicion_wf _ _ Hw Hr), Nat2Z.id. reflexivity.
Qed.

(** Extra: confirming the edit dialog of [InterfazPrincipal] on row [i]
    without touching it reads the count and the year back unchanged
    ([int(str(x)) == x]); a species or province the row holds that is not
    an option of its combobox is replaced by the first option.  The save
    then fails with the count or the year message when these are out of
    range, and otherwise overwrites row [i] with the shown values and marks
    unsaved changes. *)
Theorem editar_dialogo_sin_tocar (g : Gestor) (Hw : wf (df g)) (i : nat)
  (fila : Registro) (Hf : nth_error (filas (df g)) i = Some fila) :
  valores_dialogo fila =
    (if list_in (Especie fila) ESPECIES_PANAMA then Especie fila
     else hd "" ESPECIES_PANAMA,
     str_Z (Cantidad fila), str_Z (Año fila),
     if list_in (Provincia fila) PROVINCIAS_PANAMA then Provincia fila
     else hd "" PROVINCIAS_PANAMA) /\
  let '(e, c, a, p) := valores_dialogo fila in
  guardar_edicion g (Z.of_nat i) e c a p =
  if (Cantidad fila <? 0)%Z then (g, (false, "La cantidad debe ser positiva"))
  else if negb ((1900 <=? Año fila)%Z && (Año fila <=? 2100)%Z) then
    (g, (false, "El año debe estar entre 1900 y 2100"))
  else (mkGestor (mkDataFrame (columns (df g)) (indice (df g))
                   (set_nth i (mkRegistro e (Cantidad fila) (Año fila) p) (filas (df g))))
                 (ruta_archivo g) true,
        (true, "Registro modificado correctamente")).
Proof.
  split; [reflexivity|]. exact (guardar_edicion_dialogo g Hw i fila Hf).
Qed.

Lemma editar_dialogo_sin_tocar_witness :
  let g := mkGestor (mkDataFrame COLUMNAS_REQUERIDAS [0%Z]
                       [mkRegistro "Puma" 4 2022 "Narnia"]) (Some "datos.xlsx") false in
  wf (df g) /\
  guardar_edicion g 0 "Águila Arpía" "4" "2022" "Bocas del Toro" =
    (mkGestor (mkDataFrame COLUMNAS_REQUERIDAS [0%Z]
                 [mkRegistro "Águila Arpía" 4 2022 "Bocas del Toro"]) (Some "datos.xlsx") true,
     (true, "Registro modificado correctamente")).
Proof.
  intros g. assert (Hw : wf (df g)) by (split; reflexivity).
  split; [exact Hw|].
  destruct (editar_dialogo_sin_tocar g Hw 0 (mkRegistro "Puma" 4 2022 "Narnia") eq_refl)
    as [_ H]. exact H.
Defined.

(** Extra: on a row whose species and province are options of the edit
    dialog, whose count is not negative and whose year lies in 1900..2100,
    confirming the dialog unchanged succeeds, leaves the data as it was
    and still marks the manager as holding unsaved changes. *)
Theorem editar_dialogo_identico (g : Gestor) (Hw : wf (df g)) (i : nat)
  (fila : Registro) (Hf : nth_error (filas (df g)) i = Some fila)
  (He : In (Especie fila) ESPECIES_PANAMA)
  (Hp : In (Provincia fila) PROVINCIAS_PANAMA)
  (Hc : (0 <= Cantidad fila)%Z) (Ha : (1900 <= Año fila <= 2100)%Z) :
  let '(e, c, a, p) := valores_dialogo fila in
  guardar_edicion g (Z.of_nat i) e c a p =
  (mkGestor (df g) (ruta_archivo g) true, (true, "Registro modificado correctamente")).
Proof.
  pose proof (guardar_edicion_dialogo g Hw i fila Hf) as H.
  apply list_in_iff in He, Hp.
  unfold valores_dialogo in *. rewrite He, Hp in *. rewrite H.
  replace (Cantidad fila <? 0)%Z with false by (symmetry; apply Z.ltb_ge; lia).
  replace ((1900 <=? Año fila)%Z && (Año fila <=? 2100)%Z) with true
    by (symmetry; apply andb_true_iff; split; apply Z.leb_le; lia).
  cbn [negb].
  replace (mkRegistro (Especie fila) (Cantidad fila) (Año fila) (Provincia fila))
    with fila by (destruct fila; reflexivity).
  rewrite (set_nth_mismo _ _ _ Hf). destruct (df g); reflexivity.
Qed.

Lemma editar_dialogo_identico_witness :
  let g := gestor_tres_años in
  guardar_edicion g 1 "Jaguar" "20" "2021" "Panamá" =
  (mkGestor (df g) (ruta_archivo g) true, (true, "Registro modificado correctamente")).
Proof.
  intros g.
  assert (Hw : wf (df g)) by (split; reflexivity).
  exact (editar_dialogo_identico g Hw 1 (mkRegistro "Jaguar" 20 2021 "Panamá") eq_refl
           ltac:(simpl; tauto) ltac:(simpl; tauto) ltac:(simpl; lia) ltac:(simpl; lia)).
Defined.

Lemma species_list_miembro (especies : list celda) (s : string) :
  In s (AppAnimales.actualizar_species_list especies)
  <-> exists c, In c especies /\ c <> CNaN /\ astype_str c = s.
Proof.
  unfold AppAnimales.actualizar_species_list.
  destruct especies as [|c0 cs] eqn:E.
  - simpl. split; [intros [] | intros [c [[] _]]].
  - rewrite <- E.
    set (vals := map astype_str (filter (fun c => match c with CNaN => false | _ => true end)
                                        especies)).
    destruct (sorted_str_spec (unique vals)) as [_ Hp].
    destruct (unique_acc_spec [] vals) as [_ Hi].
    split.
    + intros Hin. apply (Permutation_in _ (Permutation_sym Hp)) in Hin.
      apply Hi in Hin as [Hin _]. apply in_map_iff in Hin as [c [Hc Hin]].
      apply filter_In in Hin as [Hin Hnn]. exists c. split; [exact Hin|]. split; [|exact Hc].
      intros ->. discriminate.
    + intros [c [Hin [Hnn Hc]]]. apply (Permutation_in _ Hp). apply Hi.
      split; [|intros []]. apply in_map_iff. exists c. split; [exact Hc|].
      apply filter_In. split; [exact Hin|]. destruct c; [reflexivity | reflexivity | congruence].
Qed.

(** Extra: [agregar_animal] of src/AppAnimales either refuses with the
    species message (blank name after stripping) or the number message
    (count or year not an integer text), or appends one row holding the
    stripped texts and the two integers; after an append, the species list
    offered by [actualizar_species_list] is the previous one plus the new
    species name. *)
Theorem agregar_animal_especies (df : list AppAnimales.Fila)
  (nombre cantidad anio provincia : string) :
  match AppAnimales.agregar_animal df nombre cantidad anio provincia with
  | inl msg =>
      (strip nombre = "" /\ msg = "Ingrese el nombre de la especie.") \/
      (strip nombre <> "" /\
       (py_int (strip cantidad) = None \/ py_int (strip anio) = None) /\
       msg = "Cantidad y Año deben ser números enteros.")
  | inr df' =>
      exists c a,
        strip nombre <> "" /\
        py_int (strip cantidad) = Some c /\ py_int (strip anio) = Some a /\
        df' = (df ++ [AppAnimales.mkFila (CStr (strip nombre)) (CInt c) (CInt a)
                                         (CStr (strip provincia))])%list /\
        (forall s, In s (AppAnimales.actualizar_species_list (map AppAnimales.a_especie df'))
                   <-> s = strip nombre \/
                       In s (AppAnimales.actualizar_species_list (map AppAnimales.a_especie df)))
  end.
Proof.
  unfold AppAnimales.agregar_animal.
  destruct (String.eqb_spec (strip nombre) "") as [E|E]; [left; split; [exact E | reflexivity]|].
  destruct (py_int (strip cantidad)) as [c|] eqn:Ec;
    [destruct (py_int (strip anio)) as [a|] eqn:Ea|].
  - exists c, a. split; [exact E|]. split; [reflexivity|]. split; [reflexivity|].
    split; [reflexivity|].
    intros s. rewrite !species_list_miembro, map_app. simpl. split.
    + intros [x [Hx [Hn Hs]]]. apply in_app_or in Hx as [Hx|[<-|[]]].
      * right. exists x. auto.
      * left. symmetry. exact Hs.
    + intros [->|[x [Hx [Hn Hs]]]].
      * exists (CStr (strip nombre)). split; [apply in_or_app; right; left; reflexivity|].
        split; [discriminate | reflexivity].
      * exists x. split; [apply in_or_app; left; exact Hx | auto].
  - right. split; [exact E|]. split; [right; reflexivity | reflexivity].
  - right. split; [exact E|]. split; [left; reflexivity | reflexivity].
Qed.
